(** * MCP HTTP bridge (src/bridge.ts): a shallow embedding

    The bridge serves six MCP methods on a stdio transport and relays
    each one as a JSON-RPC call over HTTP.  This file embeds the class
    [MCPHTTPBridge]: the values it handles (parsed JSON), the part of
    the JavaScript semantics its handlers rely on (truthiness, property
    reads, [||], [?.], string conversion, try/catch), [generateId],
    [makeHttpRequest], the six request handlers, [start] and [main]. *)

From Stdlib Require Import ZArith List String Ascii Bool Lia.
From Stdlib Require Import DecimalString.
From Stdlib Require Import SpecFloat.
Import ListNotations.
Local Open Scope string_scope.
Local Open Scope Z_scope.

(** ** JavaScript numbers

    A number is an IEEE 754 binary64 value; Stdlib's [spec_float] with
    [prec = 53] and [emax = 1024] is its specification. *)

Module Double.

Definition prec : Z := 53.
Definition emax : Z := 1024.

Definition valid (x : spec_float) : bool := valid_binary prec emax x.
Definition mul (x y : spec_float) : spec_float := SFmul prec emax x y.
Definition ltb (x y : spec_float) : bool := SFltb x y.
Definition leb (x y : spec_float) : bool := SFleb x y.

(** The double nearest to an integer (exact below 2^53). *)
Definition of_Z (z : Z) : spec_float := binary_normalize prec emax z 0 false.

(** [Math.floor]: the largest integral double not above [x].  A
    finite double with a non-negative exponent is integral already;
    otherwise the mantissa is shifted right, which on [Z] rounds
    towards minus infinity.  A positive value below one floors to +0. *)
Definition floor (x : spec_float) : spec_float :=
  match x with
  | S754_finite s m e =>
      if 0 <=? e then x
      else binary_normalize prec emax (Z.shiftl (cond_Zopp s (Zpos m)) e) 0 false
  | _ => x
  end.

(** The integer a double denotes, when it denotes one. *)
Definition to_Z (x : spec_float) : option Z :=
  match x with
  | S754_zero _ => Some 0
  | S754_finite s m e =>
      if 0 <=? e then Some (cond_Zopp s (Zpos m) * 2 ^ e)
      else if Zpos m mod 2 ^ (- e) =? 0
           then Some (cond_Zopp s (Zpos m / 2 ^ (- e)))
           else None
  | _ => None
  end.

(** ToBoolean on a number: zeros and NaN are falsy. *)
Definition truthy (x : spec_float) : bool :=
  match x with
  | S754_zero _ | S754_nan => false
  | _ => true
  end.

End Double.

(** ** Values

    What [JSON.parse] returns.  An object keeps its members in
    insertion order, as [JSON.stringify] prints them, so it is an
    association list.  The keys of a parsed object are distinct; a read
    takes the binding of the key. *)

#[local] Unset Elimination Schemes.
Inductive JSON : Type :=
| JNull
| JBool (b : bool)
| JNum (x : spec_float)
| JStr (s : string)
| JArr (items : list JSON)
| JObj (members : list (string * JSON)).
#[local] Set Elimination Schemes.

(** A JavaScript expression evaluates to a value or to [undefined]. *)
Definition value := option JSON.
Definition undefined : value := None.

Fixpoint lookup (k : string) (members : list (string * JSON)) : value :=
  match members with
  | [] => None
  | (k', v) :: rest => if String.eqb k k' then Some v else lookup k rest
  end.

(** ToBoolean. *)
Definition truthy (v : value) : bool :=
  match v with
  | None => false
  | Some JNull => false
  | Some (JBool b) => b
  | Some (JNum x) => Double.truthy x
  | Some (JStr s) => negb (String.eqb s "")
  | Some (JArr _) => true
  | Some (JObj _) => true
  end.

(** [a || b]. *)
Definition or_else (a : value) (b : JSON) : JSON :=
  match a with
  | Some v => if truthy a then v else b
  | None => b
  end.

(** ** Errors, completions and effects *)

Record JsError : Type := mkError { message : string }.

(** The outcome of evaluating a block, or of awaiting a promise: it
    completes normally with a value, or throws (rejects), or, for a
    promise that nothing ever resolves or rejects, stays pending: the
    code after the [await] never runs, nor does a [catch] around it.
    Synchronous evaluation always settles. *)
Inductive Completion (A : Type) : Type :=
| Normal (a : A)
| Throw (e : JsError)
| Pending.
Arguments Normal {A} a.
Arguments Throw {A} e.
Arguments Pending {A}.

Record JSONRPCRequest : Type := mkRequest {
  jsonrpc : string;
  method : string;
  params : value;
  id : JSON
}.

(** What a run of the bridge does to the world, in order: a body
    written to an HTTP request ([req.write(postData); req.end()]), a
    line handed to [this.log] (its text, which starts with a timestamp,
    is not kept), the stdio transport attached to the server
    ([server.connect(transport)] resolved). *)
Inductive Effect : Type :=
| Posted (url : string) (data : JSONRPCRequest)
| Logged
| Connected.

(** A computation: the effects it performed and how it completed. *)
Record Async (A : Type) : Type := mkAsync {
  trace : list Effect;
  completion : Completion A
}.
Arguments mkAsync {A} trace completion.
Arguments trace {A} a.
Arguments completion {A} a.

Definition eval {A} (c : Completion A) : Async A := mkAsync [] c.
Coercion eval : Completion >-> Async.

Definition perform (e : Effect) : Async unit := mkAsync [e] (Normal tt).

Definition bind {A B} (c : Async A) (k : A -> Async B) : Async B :=
  match completion c with
  | Normal a => mkAsync (trace c ++ trace (k a)) (completion (k a))
  | Throw e => mkAsync (trace c) (Throw e)
  | Pending => mkAsync (trace c) Pending
  end.

Definition try_catch {A} (body : Async A) (handler : JsError -> Async A) : Async A :=
  match completion body with
  | Normal _ | Pending => body
  | Throw e => mkAsync (trace body ++ trace (handler e)) (completion (handler e))
  end.

Declare Scope js_scope.
Delimit Scope js_scope with js.
Notation "x <- c ;; k" := (bind c (fun x => k))
  (at level 61, c at next level, right associativity) : js_scope.
Notation "c ;; k" := (bind c (fun _ => k))
  (at level 61, right associativity) : js_scope.
Notation "'try' b 'catch' e '=>' h" := (try_catch b (fun e => h))
  (at level 61, e name, b at level 200, h at level 61) : js_scope.
Local Open Scope js_scope.

Definition log : Async unit := perform Logged.

(** The requests a computation posted, in order. *)
Fixpoint posted (t : list Effect) : list JSONRPCRequest :=
  match t with
  | [] => []
  | Posted _ data :: rest => data :: posted rest
  | _ :: rest => posted rest
  end.

(** The engine's TypeError texts (V8's wording). *)
Definition TypeError_read_null (k : string) : JsError :=
  mkError ("Cannot read properties of null (reading '" ++ k ++ "')").
Definition TypeError_to_primitive : JsError :=
  mkError "Cannot convert object to primitive value".

(** [v.k] for a value that is not [undefined].  Reading from [null]
    throws.  Only an object has members; none of the keys the bridge
    reads ([error], [result], [message], [tools], [content],
    [resources], [contents], [prompts], [description], [messages]) is a
    property of a string, number, boolean or array, nor of
    [Object.prototype]. *)
Definition member (v : JSON) (k : string) : Completion value :=
  match v with
  | JNull => Throw (TypeError_read_null k)
  | JObj members => Normal (lookup k members)
  | _ => Normal undefined
  end.

(** [v?.k]: [undefined] when [v] is [undefined] or [null]. *)
Definition opt_member (v : value) (k : string) : value :=
  match v with
  | Some (JObj members) => lookup k members
  | _ => undefined
  end.

(** ** The runtime's built-ins

    [JSON.parse], [JSON.stringify] and the conversion of a number to a
    string belong to the engine, not to the bridge: the development is
    parametric in them.  [JSON_parse] answers [None] where [JSON.parse]
    throws a SyntaxError. *)

Section Bridge.

Variable JSON_parse : string -> option JSON.
Variable JSON_stringify : JSON -> string.
Variable Number_toString : spec_float -> string.

(** ToString on a parsed value.  An array joins its elements with
    commas, [null] elements printing as nothing.  An object prints as
    [[object Object]] through [Object.prototype.toString], unless it has
    a member named [toString] of its own: a parsed member is never
    callable, [valueOf] does not return a primitive, and the conversion
    throws a TypeError. *)
Fixpoint ToString (v : JSON) : Completion string :=
  match v with
  | JNull => Normal "null"
  | JBool true => Normal "true"
  | JBool false => Normal "false"
  | JNum x => Normal (Number_toString x)
  | JStr s => Normal s
  | JArr items =>
      let element (x : JSON) : Completion string :=
        match x with
        | JNull => Normal ""
        | _ => ToString x
        end in
      (fix join (l : list JSON) : Completion string :=
         match l with
         | [] => Normal ""
         | x :: rest =>
             match element x, rest with
             | Normal s, [] => Normal s
             | Normal s, _ =>
                 match join rest with
                 | Normal t => Normal (s ++ "," ++ t)
                 | unsettled => unsettled
                 end
             | unsettled, _ => unsettled
             end
         end) items
  | JObj members =>
      match lookup "toString" members with
      | Some _ => Throw TypeError_to_primitive
      | None => Normal "[object Object]"
      end
  end.

(** [new Error(m)]: no message for [undefined], else ToString of it. *)
Definition new_Error (m : value) : Completion JsError :=
  match m with
  | None => Normal (mkError "")
  | Some v =>
      match ToString v with
      | Normal s => Normal (mkError s)
      | Throw e => Throw e
      | Pending => Pending
      end
  end.

(** [v.length] for a value that is neither [null] nor [undefined]; a
    string counts its UTF-16 code units. *)
Definition utf16_units (c : ascii) : nat :=
  let n := nat_of_ascii c in
  if (n <? 128)%nat then 1          (* ASCII *)
  else if (n <? 192)%nat then 0     (* continuation byte *)
  else if (n <? 240)%nat then 1     (* lead of a 2- or 3-byte sequence *)
  else 2.                           (* lead of a 4-byte sequence: a surrogate pair *)

Fixpoint utf16_length (s : string) : nat :=
  match s with
  | EmptyString => 0
  | String c rest => utf16_units c + utf16_length rest
  end.

Definition length_of (v : JSON) : value :=
  match v with
  | JArr items => Some (JNum (Double.of_Z (Z.of_nat (List.length items))))
  | JStr s => Some (JNum (Double.of_Z (Z.of_nat (utf16_length s))))
  | JObj members => lookup "length" members
  | _ => undefined
  end.

(** A call of [this.log] whose line interpolates [v] into a template
    literal: ToString of [v], which may throw, and then the line. *)
Definition log_interpolating (v : value) : Async unit :=
  match v with
  | None => log
  | Some x => _ <- ToString x ;; log
  end.

(** ** generateId

    [Math.floor(Math.random() * 1000000)], on the double [random] that
    [Math.random()] returned. *)

Definition million : spec_float := S754_finite false 8589934592000000 (-33).

Definition generateId (random : spec_float) : spec_float :=
  Double.floor (Double.mul random million).

(** The exponent of the unit in the last place of a binary64 value
    whose magnitude has [e] binary digits. *)
Definition fexp64 (e : Z) : Z := fexp 53 1024 e.

(** What [Math.random] promises: a double in the interval [0, 1). *)
Definition unit_interval (random : spec_float) : bool :=
  Double.valid random
  && Double.leb (S754_zero false) random
  && Double.ltb random (Double.of_Z 1).

(** ** makeHttpRequest

    The promise settles once, on the first of: an exception in the
    executor before anything is written ([new URL] or [client.request]
    throwing), the request's [error] event, its [timeout] event, or the
    response's [end] event with the status code and the accumulated
    body.  The code listens to nothing else.  A response that begins
    and is then cut off (the peer closes the connection in the middle
    of the body) fires neither [end] on the response nor [error] or
    [timeout] on the request, the data received so far stays in
    [responseData], and the promise is never settled.

    In the [timeout] listener [req.destroy()] comes before [reject].
    When no response had begun, the destroyed request then emits
    [error] ("socket hang up"): the [error] listener logs one more
    line, and its [reject] does nothing, the promise being settled.
    [hang_up] tells whether that happens.  The line is written after
    the rejection; a trace keeps it next to the rejection, lines being
    indistinguishable in a trace. *)

Inductive Exchange : Type :=
| ExecutorThrows (e : JsError)
| RequestError (e : JsError)
| RequestTimeout (hang_up : bool)
| ResponseEnd (statusCode : option N) (responseData : string)
| ResponseCutOff (statusCode : option N) (received : string).

(** The remote side: what happens to a request posted to a URL. *)
Definition Network : Type := string -> JSONRPCRequest -> Exchange.

(** [res.statusCode && res.statusCode >= 200 && res.statusCode < 300] *)
Definition status_ok (statusCode : option N) : bool :=
  match statusCode with
  | None => false
  | Some n => (negb (n =? 0) && (200 <=? n) && (n <? 300))%N
  end.

Definition status_text (statusCode : option N) : string :=
  match statusCode with
  | None => "undefined"
  | Some n => NilEmpty.string_of_uint (N.to_uint n)
  end.

Definition makeHttpRequest (net : Network) (serverUrl : string) (data : JSONRPCRequest)
  : Async JSON :=
  match net serverUrl data with
  | ExecutorThrows e => Throw e
  | RequestError e =>
      perform (Posted serverUrl data) ;; log ;; Throw e
  | RequestTimeout hang_up =>
      perform (Posted serverUrl data) ;;
      (if hang_up then log else eval (Normal tt)) ;;
      Throw (mkError "Request timeout")
  | ResponseCutOff _ _ =>
      perform (Posted serverUrl data) ;; Pending
  | ResponseEnd statusCode responseData =>
      perform (Posted serverUrl data) ;;
      log ;;
      if status_ok statusCode then
        match JSON_parse responseData with
        | Some parsed => Normal parsed
        | None => log ;; Throw (mkError ("Invalid JSON response: " ++ responseData))
        end
      else Throw (mkError ("HTTP " ++ status_text statusCode ++ ": " ++ responseData))
  end.

(** ** setupHandlers

    A handler receives the request the SDK decoded and validated against
    the method's schema.  [request_id] is the id the client gave it; the
    handlers never read it.  Each handler draws one number from
    [Math.random] for the id of the call it sends. *)

Record Request : Type := mkLocal {
  request_id : JSON;
  request_method : string;
  request_params : value
}.

Section Handlers.

Variable net : Network.
Variable serverUrl : string.

(** [if (response.error) { throw new Error(response.error.message); }] *)
Definition throw_if_error (response : JSON) : Async unit :=
  error <- member response "error" ;;
  match error with
  | Some e =>
      if truthy error then
        m <- member e "message" ;;
        err <- new_Error m ;;
        Throw err
      else Normal tt
  | None => Normal tt
  end.

Definition handle_tools_list (random : spec_float) : Async JSON :=
  log ;;
  try
    (response <- makeHttpRequest net serverUrl
       (mkRequest "2.0" "tools/list" (Some (JObj [])) (JNum (generateId random))) ;;
     throw_if_error response ;;
     result <- member response "result" ;;
     let tools := or_else (opt_member result "tools") (JArr []) in
     log_interpolating (length_of tools) ;;
     Normal (JObj [("tools", tools)]))
  catch error =>
    log ;;
    Throw (mkError ("Failed to get tools: " ++ message error)).

(** The line logged before the [try] interpolates [request.params?.name],
    which [CallToolRequestSchema] has checked to be a string. *)
Definition handle_tools_call (request : Request) (random : spec_float) : Async JSON :=
  log ;;
  try
    (response <- makeHttpRequest net serverUrl
       (mkRequest "2.0" "tools/call" (request_params request) (JNum (generateId random))) ;;
     throw_if_error response ;;
     result <- member response "result" ;;
     Normal (JObj [("content",
       or_else (opt_member result "content")
         (JArr [JObj [("type", JStr "text");
                      ("text", JStr (JSON_stringify (or_else result (JObj []))))]]))]))
  catch error =>
    log ;;
    Throw (mkError ("Tool execution failed: " ++ message error)).

Definition handle_resources_list (random : spec_float) : Async JSON :=
  log ;;
  try
    (response <- makeHttpRequest net serverUrl
       (mkRequest "2.0" "resources/list" (Some (JObj [])) (JNum (generateId random))) ;;
     result <- member response "result" ;;
     Normal (JObj [("resources", or_else (opt_member result "resources") (JArr []))]))
  catch error =>
    log ;;
    Normal (JObj [("resources", JArr [])]).

Definition handle_resources_read (request : Request) (random : spec_float) : Async JSON :=
  log ;;
  try
    (response <- makeHttpRequest net serverUrl
       (mkRequest "2.0" "resources/read" (request_params request) (JNum (generateId random))) ;;
     result <- member response "result" ;;
     Normal (JObj [("contents", or_else (opt_member result "contents") (JArr []))]))
  catch error =>
    log ;;
    Normal (JObj [("contents", JArr [])]).

Definition handle_prompts_list (random : spec_float) : Async JSON :=
  log ;;
  try
    (response <- makeHttpRequest net serverUrl
       (mkRequest "2.0" "prompts/list" (Some (JObj [])) (JNum (generateId random))) ;;
     result <- member response "result" ;;
     Normal (JObj [("prompts", or_else (opt_member result "prompts") (JArr []))]))
  catch error =>
    log ;;
    Normal (JObj [("prompts", JArr [])]).

Definition handle_prompts_get (request : Request) (random : spec_float) : Async JSON :=
  log ;;
  try
    (response <- makeHttpRequest net serverUrl
       (mkRequest "2.0" "prompts/get" (request_params request) (JNum (generateId random))) ;;
     result <- member response "result" ;;
     Normal (JObj [("description", or_else (opt_member result "description") (JStr ""));
                   ("messages", or_else (opt_member result "messages") (JArr []))]))
  catch error =>
    log ;;
    Normal (JObj [("description", JStr ""); ("messages", JArr [])]).

(** The six schemas [setupHandlers] registers a handler for, and the
    method literal each one matches. *)
Inductive Method : Type :=
| ListTools
| CallTool
| ListResources
| ReadResource
| ListPrompts
| GetPrompt.

Definition method_name (m : Method) : string :=
  match m with
  | ListTools => "tools/list"
  | CallTool => "tools/call"
  | ListResources => "resources/list"
  | ReadResource => "resources/read"
  | ListPrompts => "prompts/list"
  | GetPrompt => "prompts/get"
  end.

Definition handler (m : Method) (request : Request) (random : spec_float) : Async JSON :=
  match m with
  | ListTools => handle_tools_list random
  | CallTool => handle_tools_call request random
  | ListResources => handle_resources_list random
  | ReadResource => handle_resources_read request random
  | ListPrompts => handle_prompts_list random
  | GetPrompt => handle_prompts_get request random
  end.

Definition setupHandlers : list Method :=
  [ListTools; CallTool; ListResources; ReadResource; ListPrompts; GetPrompt].

End Handlers.

(** ** The bridge object

    The SDK's [Server] as the bridge uses it: the schemas a handler was
    registered for, and whether a transport is attached.  A request
    reaches the server only through an attached transport; the server
    runs the handler registered for its method, and answers
    "Method not found" when there is none. *)

Record Server : Type := mkServer {
  requestHandlers : list Method;
  transport : bool
}.

Record MCPHTTPBridge : Type := mkBridge {
  serverUrl : string;
  server : Server
}.

(** [new MCPHTTPBridge(serverUrl)]: [setupServer], then [setupHandlers]. *)
Definition constructor (url : string) : MCPHTTPBridge :=
  mkBridge url (mkServer setupHandlers false).

Definition find_handler (name : string) (registered : list Method) : option Method :=
  List.find (fun m => String.eqb (method_name m) name) registered.

Definition on_request (net : Network) (this : MCPHTTPBridge)
    (request : Request) (random : spec_float) : option (Async JSON) :=
  if transport (server this) then
    match find_handler (request_method request) (requestHandlers (server this)) with
    | Some m => Some (handler net (serverUrl this) m request random)
    | None => Some (eval (Throw (mkError "Method not found")))
    end
  else None.

(** ** start

    [connect] is what [server.connect(transport)] does with the fresh
    [StdioServerTransport]. *)

Definition initialize_request : JSONRPCRequest :=
  mkRequest "2.0" "initialize"
    (Some (JObj [("protocolVersion", JStr "2024-11-05");
                 ("capabilities", JObj []);
                 ("clientInfo", JObj [("name", JStr "FlowMattic MCP Remote");
                                      ("version", JStr "1.0.0")])]))
    (JNum (Double.of_Z 1)).

Definition server_connect (connect : Completion unit) (s : Server) : Async Server :=
  match connect with
  | Normal _ => perform Connected ;; Normal (mkServer (requestHandlers s) true)
  | Throw e => Throw e
  | Pending => Pending
  end.

Definition start (net : Network) (connect : Completion unit) (this : MCPHTTPBridge)
  : Async MCPHTTPBridge :=
  try
    (log ;;
     (try
        (makeHttpRequest net (serverUrl this) initialize_request ;;
         log)
      catch error =>
        log ;;
        log) ;;
     log ;;
     s <- server_connect connect (server this) ;;
     log ;;
     log ;;
     Normal (mkBridge (serverUrl this) s))
  catch error =>
    log ;;
    Throw error.

(** ** main

    [argv] is [process.argv]: the interpreter, the script, then the
    arguments.  With fewer than three entries [main] prints the two
    usage lines and exits with code 1.  Otherwise it constructs the
    bridge for [argv[2]] and awaits [start]; an exception is printed
    after "Fatal error:" and the process exits with code 1.  When
    [start] resolves [main] returns and the process stays alive,
    serving.  While [start] is pending [main] is pending too: nothing
    is printed and [process.exit] is not called.  [exit_code] is the
    code [main] passes to [process.exit], if it calls it. *)

Inductive Stderr : Type :=
| Line (text : string)
| FatalError (error : JsError).

Record Process : Type := mkProcess {
  printed : list Stderr;
  effects : list Effect;
  exit_code : option N
}.

Definition usage : list Stderr :=
  [Line "Usage: mcp-remote <server-url>";
   Line ("Example: mcp-remote https://equipped-nicely-dassie.ngrok-free.app"
         ++ "/wp-json/flowmattic/v1/mcp-server/e5308822-fd1c-48fa-8613-1fc9ddfd91c0")].

Definition main (argv : list string) (net : Network) (connect : Completion unit) : Process :=
  if (List.length argv <? 3)%nat then mkProcess usage [] (Some 1%N)
  else
    let serverUrl := nth 2 argv "" in
    let run := start net connect (constructor serverUrl) in
    match completion run with
    | Normal _ | Pending => mkProcess [] (trace run) None
    | Throw error => mkProcess [FatalError error] (trace run) (Some 1%N)
    end.

(** ** Vocabulary of the properties *)

(** The call a handler hands to [makeHttpRequest]. *)
Definition outgoing (m : Method) (request : Request) (random : spec_float) : JSONRPCRequest :=
  match m with
  | ListTools | ListResources | ListPrompts =>
      mkRequest "2.0" (method_name m) (Some (JObj [])) (JNum (generateId random))
  | CallTool | ReadResource | GetPrompt =>
      mkRequest "2.0" (method_name m) (request_params request) (JNum (generateId random))
  end.

(** The two "tool" methods of the dispatch table, whose failures are
    propagated. *)
Definition is_tool (m : Method) : bool :=
  match m with
  | ListTools | CallTool => true
  | _ => false
  end.

(** The "On failure" column of the dispatch table, in the spec's words:
    for a tool method the prefix of the propagated message, for the
    others the literal fallback. *)
Definition failure_prefix (m : Method) : string :=
  match m with
  | ListTools => "Failed to get tools: "
  | CallTool => "Tool execution failed: "
  | _ => ""
  end.

Definition fallback (m : Method) : JSON :=
  match m with
  | ListResources => JObj [("resources", JArr [])]
  | ReadResource => JObj [("contents", JArr [])]
  | ListPrompts => JObj [("prompts", JArr [])]
  | GetPrompt => JObj [("description", JStr ""); ("messages", JArr [])]
  | ListTools | CallTool => JNull
  end.

(** The member of the remote result a method forwards (for
    [prompts/get], [description] besides [messages]). *)
Definition payload_key (m : Method) : string :=
  match m with
  | ListTools => "tools"
  | CallTool => "content"
  | ListResources => "resources"
  | ReadResource => "contents"
  | ListPrompts => "prompts"
  | GetPrompt => "messages"
  end.

(** An HTTP status in 200-299. *)
Definition in_2xx (statusCode : option N) : Prop :=
  exists n, statusCode = Some n /\ (200 <= n <= 299)%N.

(** A response whose status is in 200-299 and whose body parses. *)
Definition answers (x : Exchange) (response : JSON) : Prop :=
  exists statusCode body,
    x = ResponseEnd statusCode body /\
    in_2xx statusCode /\
    JSON_parse body = Some response.

(** A well-formed JSON-RPC response carrying an error: an [error]
    object with a numeric [code] and a string [message], and no
    [result]. *)
Definition error_response (response : JSON) (msg : string) : Prop :=
  exists members err code,
    response = JObj members /\
    lookup "error" members = Some (JObj err) /\
    lookup "code" err = Some (JNum code) /\
    lookup "message" err = Some (JStr msg) /\
    lookup "result" members = None.

(** The remote failures on which the promise of [makeHttpRequest]
    settles, each with the message of its cause: a transport error
    before or while the request is written, a timeout, an HTTP status
    outside 200-299, a body that does not parse, a well-formed
    JSON-RPC error. *)
Inductive SettledFailure : Exchange -> string -> Prop :=
| transport_setup e :
    SettledFailure (ExecutorThrows e) (message e)
| transport_error e :
    SettledFailure (RequestError e) (message e)
| transport_timeout hang_up :
    SettledFailure (RequestTimeout hang_up) "Request timeout"
| protocol_error statusCode body :
    ~ in_2xx statusCode ->
    SettledFailure (ResponseEnd statusCode body)
      ("HTTP " ++ status_text statusCode ++ ": " ++ body)
| decode_error statusCode body :
    in_2xx statusCode ->
    JSON_parse body = None ->
    SettledFailure (ResponseEnd statusCode body) ("Invalid JSON response: " ++ body)
| remote_rpc_error x response msg :
    answers x response ->
    error_response response msg ->
    SettledFailure x msg.

(** The transport failure on which it does not: the response is cut
    off in the middle of the body. *)
Definition cut_off (x : Exchange) : Prop :=
  exists statusCode received, x = ResponseCutOff statusCode received.

(** Every remote failure. *)
Definition RemoteFailure (x : Exchange) : Prop :=
  (exists cause, SettledFailure x cause) \/ cut_off x.

End Bridge.

(** ** Fixtures

    A stand-in for the engine's built-ins, to run the bridge on concrete
    exchanges: a printer for values, and a parser that recognises the
    printed form of the documents listed in [documents]. *)

Module Sample.

Definition quote : string := String "034"%char EmptyString.
Definition backslash : string := String "092"%char EmptyString.

Definition hex_digit (n : nat) : ascii :=
  ascii_of_nat (if (n <? 10)%nat then 48 + n else 87 + n).

Definition escape (c : ascii) : string :=
  let n := nat_of_ascii c in
  if (n =? 34)%nat then backslash ++ quote
  else if (n =? 92)%nat then backslash ++ backslash
  else if (n =? 8)%nat then backslash ++ "b"
  else if (n =? 9)%nat then backslash ++ "t"
  else if (n =? 10)%nat then backslash ++ "n"
  else if (n =? 12)%nat then backslash ++ "f"
  else if (n =? 13)%nat then backslash ++ "r"
  else if (n <? 32)%nat then
    backslash ++ "u00" ++ String (hex_digit (n / 16)) (String (hex_digit (n mod 16)) "")
  else String c "".

Fixpoint quoted_body (s : string) : string :=
  match s with
  | EmptyString => ""
  | String c rest => escape c ++ quoted_body rest
  end.

Definition quoted (s : string) : string := quote ++ quoted_body s ++ quote.

(** Integral doubles print in decimal, as they do in JavaScript below
    1e21; the fixtures hold no other number. *)
Definition number_toString (x : spec_float) : string :=
  match Double.to_Z x with
  | Some n => NilZero.string_of_int (Z.to_int n)
  | None => "NaN"
  end.

Fixpoint stringify (v : JSON) : string :=
  match v with
  | JNull => "null"
  | JBool true => "true"
  | JBool false => "false"
  | JNum x => number_toString x
  | JStr s => quoted s
  | JArr items =>
      "[" ++ (fix elements (l : list JSON) : string :=
                match l with
                | [] => ""
                | [x] => stringify x
                | x :: rest => stringify x ++ "," ++ elements rest
                end) items ++ "]"
  | JObj members =>
      "{" ++ (fix fields (l : list (string * JSON)) : string :=
                match l with
                | [] => ""
                | [(k, x)] => quoted k ++ ":" ++ stringify x
                | (k, x) :: rest => quoted k ++ ":" ++ stringify x ++ "," ++ fields rest
                end) members ++ "}"
  end.

Definition rpc_error (code : Z) (msg : string) : JSON :=
  JObj [("jsonrpc", JStr "2.0");
        ("error", JObj [("code", JNum (Double.of_Z code)); ("message", JStr msg)]);
        ("id", JNum (Double.of_Z 1))].

Definition rpc_result (result : JSON) : JSON :=
  JObj [("jsonrpc", JStr "2.0"); ("result", result); ("id", JNum (Double.of_Z 1))].

Definition echo_tools : JSON :=
  JObj [("result", JObj [("tools", JArr [JObj [("name", JStr "echo")]])])].

Definition no_such_tool : JSON :=
  JObj [("error", JObj [("code", JNum (Double.of_Z (-32601)));
                        ("message", JStr "no such tool")])].

Definition documents : list JSON :=
  [ echo_tools;
    no_such_tool;
    rpc_error (-32000) "backend down";
    rpc_result (JObj [("content", JArr [JObj [("type", JStr "text"); ("text", JStr "hi")]])]);
    rpc_result (JObj [("content", JStr "")]);
    rpc_result (JBool false);
    rpc_result (JObj [("resources", JArr [JObj [("uri", JStr "file:///a")]])]);
    rpc_result (JObj [("contents", JArr [JObj [("uri", JStr "file:///a"); ("text", JStr "A")]])]);
    rpc_result (JObj [("prompts", JArr [JObj [("name", JStr "greet")]])]);
    rpc_result (JObj [("description", JStr "Greets"); ("messages", JArr [JObj [("role", JStr "user")]])]);
    JNull ].

Definition parse (body : string) : option JSON :=
  List.find (fun v => String.eqb (stringify v) body) documents.

(** A server that answers every request with the same exchange. *)
Definition always (x : Exchange) : Network := fun _ _ => x.

Definition replies (status : N) (document : JSON) : Network :=
  always (ResponseEnd (Some status) (stringify document)).

Definition url : string := "https://example.test/mcp".

Definition call_echo : Request :=
  mkLocal (JNum (Double.of_Z 7)) "tools/call"
    (Some (JObj [("name", JStr "echo"); ("arguments", JObj [("text", JStr "hi")])])).

Definition list_request (name : string) : Request :=
  mkLocal (JNum (Double.of_Z 0)) name (Some (JObj [("cursor", JStr "page-2")])).

(** A handler of a bridge for [url], run with the stand-in built-ins. *)
Definition run (net : Network) (m : Method) (request : Request) (random : spec_float)
  : Async JSON :=
  handler parse stringify number_toString net url m request random.

(** The largest double below one, and one half. *)
Definition almost_one : spec_float := S754_finite false 9007199254740991 (-53).
Definition one_half : spec_float := S754_finite false 4503599627370496 (-53).

End Sample.

(** Responses a well-behaved server does not send. *)

Module Corner.

(** An error together with a result. *)
Definition error_and_result : JSON :=
  JObj [("error", JObj [("code", JNum (Double.of_Z (-32000))); ("message", JStr "partial")]);
        ("result", JObj [("resources", JArr [JObj [("uri", JStr "file:///a")]])])].

(** A [tools] object whose [length] has a [toString] member of its own. *)
Definition odd_tools : JSON :=
  JObj [("result",
         JObj [("tools", JObj [("length", JObj [("toString", JNum (Double.of_Z 1))])])])].

Definition documents : list JSON := [error_and_result; odd_tools].

Definition parse (body : string) : option JSON :=
  List.find (fun v => String.eqb (Sample.stringify v) body) documents.

Definition run (net : Network) (m : Method) (request : Request) (random : spec_float)
  : Async JSON :=
  handler parse Sample.stringify Sample.number_toString net Sample.url m request random.

End Corner.

(** * Properties *)

(** ** The effect monad *)

Lemma completion_bind {A B} (c : Async A) (k : A -> Async B) :
  completion (bind c k) =
  match completion c with
  | Normal a => completion (k a)
  | Throw e => Throw e
  | Pending => Pending
  end.
Proof. unfold bind. destruct (completion c); reflexivity. Qed.

Lemma completion_try {A} (body : Async A) (h : JsError -> Async A) :
  completion (try_catch body h) =
  match completion body with
  | Normal a => Normal a
  | Throw e => completion (h e)
  | Pending => Pending
  end.
Proof. unfold try_catch. destruct (completion body) eqn:E; auto. Qed.

Lemma trace_bind {A B} (c : Async A) (k : A -> Async B) :
  trace (bind c k) =
  match completion c with
  | Normal a => (trace c ++ trace (k a))%list
  | Throw _ | Pending => trace c
  end.
Proof. unfold bind. destruct (completion c); reflexivity. Qed.

Lemma trace_try {A} (body : Async A) (h : JsError -> Async A) :
  trace (try_catch body h) =
  match completion body with
  | Normal _ | Pending => trace body
  | Throw e => (trace body ++ trace (h e))%list
  end.
Proof. unfold try_catch. destruct (completion body); reflexivity. Qed.

Lemma posted_app (t1 t2 : list Effect) :
  posted (t1 ++ t2) = (posted t1 ++ posted t2)%list.
Proof.
  induction t1 as [|e t1 IH]; simpl; auto.
  destruct e; simpl; rewrite IH; reflexivity.
Qed.

Lemma status_ok_spec (statusCode : option N) :
  status_ok statusCode = true <-> in_2xx statusCode.
Proof.
  unfold status_ok, in_2xx. destruct statusCode as [n|].
  - rewrite !andb_true_iff, negb_true_iff, N.eqb_neq, N.leb_le, N.ltb_lt.
    split.
    + intros [[_ Hlo] Hhi]. exists n. split; [reflexivity | lia].
    + intros [k [Hk Hr]]. injection Hk as <-. lia.
  - split; [discriminate | intros [k [Hk _]]; discriminate].
Qed.

Lemma status_ok_false (statusCode : option N) :
  ~ in_2xx statusCode -> status_ok statusCode = false.
Proof.
  intro H. destruct (status_ok statusCode) eqn:E; auto.
  apply status_ok_spec in E. contradiction.
Qed.

(** ** Doubles: rounding, and the range of generateId *)

Lemma digits2_pos_size (p : positive) : digits2_pos p = Pos.size p.
Proof. induction p; simpl; congruence. Qed.

Lemma digits2_pos_bounds (p : positive) :
  2 ^ (Zpos (digits2_pos p) - 1) <= Zpos p < 2 ^ Zpos (digits2_pos p).
Proof.
  induction p as [p IH|p IH|]; cbn [digits2_pos]; rewrite ?Pos2Z.inj_succ.
  - replace (Z.succ (Zpos (digits2_pos p)) - 1) with (Z.succ (Zpos (digits2_pos p) - 1)) by lia.
    rewrite !Z.pow_succ_r by lia. lia.
  - replace (Z.succ (Zpos (digits2_pos p)) - 1) with (Z.succ (Zpos (digits2_pos p) - 1)) by lia.
    rewrite !Z.pow_succ_r by lia. lia.
  - simpl. lia.
Qed.

Lemma Zdigits2_le (x k : Z) : 0 <= k -> 0 <= x < 2 ^ k -> 0 <= Zdigits2 x <= k.
Proof.
  intros Hk Hx. destruct x as [|p|p]; simpl; try lia.
  pose proof (digits2_pos_bounds p) as [Hlo _].
  split; [lia|].
  destruct (Z_le_gt_dec (Zpos (digits2_pos p)) k) as [|Hgt]; auto.
  assert (2 ^ k <= 2 ^ (Zpos (digits2_pos p) - 1)) by (apply Z.pow_le_mono_r; lia).
  lia.
Qed.

Lemma shr_1_spec (mrs : shr_record) :
  0 <= shr_m mrs ->
  shr_m (shr_1 mrs) = shr_m mrs / 2 /\ shr_r (shr_1 mrs) = Z.odd (shr_m mrs).
Proof.
  destruct mrs as [m r s]. cbn [shr_m]. intro Hm.
  rewrite <- Z.div2_div.
  destruct m as [|[p|p|]|p]; try lia; split; reflexivity.
Qed.

Lemma iter_shr_1_spec (p : positive) :
  forall mrs, 0 <= shr_m mrs ->
    shr_m (iter_pos shr_1 p mrs) = shr_m mrs / 2 ^ Zpos p /\
    shr_r (iter_pos shr_1 p mrs) = Z.testbit (shr_m mrs) (Zpos p - 1).
Proof.
  induction p as [p IH|p IH|]; intros mrs Hm; cbn [iter_pos].
  - destruct (shr_1_spec mrs Hm) as [Ha _].
    assert (0 <= shr_m (shr_1 mrs)) as Ha0 by (rewrite Ha; apply Z.div_pos; lia).
    destruct (IH _ Ha0) as [Hb _].
    assert (0 <= shr_m (iter_pos shr_1 p (shr_1 mrs))) as Hb0
      by (rewrite Hb; apply Z.div_pos; lia).
    destruct (IH _ Hb0) as [Hc Hr].
    rewrite Hc, Hr, Hb, Ha. split.
    + rewrite !Z.div_div by lia. f_equal.
      rewrite Pos2Z.inj_xI, <- Z.pow_add_r, <- (Z.pow_1_r 2) at 1 by lia.
      rewrite <- Z.pow_add_r by lia. f_equal. lia.
    + rewrite Z.div_pow2_bits by lia.
      replace (shr_m mrs / 2) with (shr_m mrs / 2 ^ 1) by reflexivity.
      rewrite Z.div_pow2_bits by lia. f_equal. lia.
  - destruct (IH _ Hm) as [Hb _].
    assert (0 <= shr_m (iter_pos shr_1 p mrs)) as Hb0
      by (rewrite Hb; apply Z.div_pos; lia).
    destruct (IH _ Hb0) as [Hc Hr].
    rewrite Hc, Hr, Hb. split.
    + rewrite Z.div_div by lia. f_equal.
      rewrite Pos2Z.inj_xO, <- Z.pow_add_r by lia. f_equal. lia.
    + rewrite Z.div_pow2_bits by lia. f_equal. lia.
  - destruct (shr_1_spec mrs Hm) as [Ha Hr]. rewrite Ha, Hr. split.
    + reflexivity.
    + symmetry. apply Z.bit0_odd.
Qed.

(** [shr] on a non-negative mantissa divides by a power of two. *)
Lemma shr_spec (m e n : Z) :
  0 <= m ->
  let '(mrs, e') := shr (Build_shr_record m false false) e n in
  e' = e + Z.max n 0 /\
  shr_m mrs = m / 2 ^ Z.max n 0 /\
  (n <= 0 -> shr_r mrs = false /\ shr_s mrs = false) /\
  (0 < n -> shr_r mrs = Z.testbit m (n - 1)).
Proof.
  intro Hm. unfold shr. destruct n as [|p|p].
  - cbn [shr_m shr_r shr_s]. rewrite Z.div_1_r.
    repeat split; try lia.
  - destruct (iter_shr_1_spec p (Build_shr_record m false false) Hm) as [H1 H2].
    cbn [shr_m] in H1, H2.
    replace (Z.max (Zpos p) 0) with (Zpos p) by lia.
    repeat split; auto; lia.
  - cbn [shr_m shr_r shr_s]. replace (Z.max (Zneg p) 0) with 0 by lia.
    rewrite Z.div_1_r. repeat split; lia.
Qed.

Lemma testbit_mod_ge (a n : Z) :
  0 <= a -> 0 < n -> Z.testbit a (n - 1) = true -> 2 ^ (n - 1) <= a mod 2 ^ n.
Proof.
  intros Ha Hn Hb.
  apply Z.testbit_true in Hb; [|lia].
  replace (2 ^ n) with (2 ^ (n - 1) * 2)
    by (rewrite <- (Z.pow_1_r 2) at 2; rewrite <- Z.pow_add_r by lia; f_equal; lia).
  assert (0 < 2 ^ (n - 1)) by (apply Z.pow_pos_nonneg; lia).
  rewrite Z.rem_mul_r by lia. rewrite Hb.
  pose proof (Z.mod_pos_bound a (2 ^ (n - 1))). lia.
Qed.

Lemma round_nearest_even_bounds (mx : Z) (lx : location) :
  mx <= round_nearest_even mx lx <= mx + 1.
Proof.
  destruct lx as [|[]]; simpl; try lia. destruct (Z.even mx); lia.
Qed.

(** Rounding to nearest after a shift by [n] moves the value up by at
    most half a unit of the last place. *)
Lemma shr_round_upper (m e n : Z) :
  0 < m ->
  let '(mrs, e') := shr (Build_shr_record m false false) e n in
  let m1 := round_nearest_even (shr_m mrs) (loc_of_shr_record mrs) in
  e' = e + Z.max n 0 /\
  0 <= m1 <= m + 1 /\
  m1 * 2 ^ Z.max n 0 <= m + 2 ^ (n - 1).
Proof.
  intro Hm.
  pose proof (shr_spec m e n ltac:(lia)) as H.
  destruct (shr (Build_shr_record m false false) e n) as [mrs e'].
  destruct H as (He & Hq & Hle & Hgt). cbn zeta.
  split; [assumption|].
  destruct (Z_le_gt_dec n 0) as [Hn|Hn].
  - destruct (Hle Hn) as [Hr Hs].
    replace (Z.max n 0) with 0 in * by lia.
    rewrite Z.div_1_r in Hq.
    destruct mrs as [q r s]; cbn [shr_m shr_r shr_s] in *; subst.
    cbn. pose proof (Z.pow_nonneg 2 (n - 1)). lia.
  - replace (Z.max n 0) with n in * by lia.
    assert (0 < 2 ^ n) by (apply Z.pow_pos_nonneg; lia).
    assert (2 ^ n = 2 * 2 ^ (n - 1)) as Hpow
      by (rewrite <- Z.pow_succ_r by lia; f_equal; lia).
    pose proof (Z.div_mod m (2 ^ n) ltac:(lia)) as Hdm.
    pose proof (Z.mod_pos_bound m (2 ^ n) ltac:(lia)) as Hmod.
    assert (0 <= m / 2 ^ n <= m) as Hqb.
    { split; [apply Z.div_pos; lia|]. apply Z.div_le_upper_bound; nia. }
    specialize (Hgt ltac:(lia)).
    pose proof (round_nearest_even_bounds (shr_m mrs) (loc_of_shr_record mrs)) as Hrb.
    rewrite Hq in *.
    split; [lia|].
    destruct mrs as [q r s]; cbn [shr_m shr_r shr_s] in *.
    destruct r.
    + symmetry in Hgt. apply testbit_mod_ge in Hgt; try lia.
      nia.
    + assert (round_nearest_even (m / 2 ^ n)
                (loc_of_shr_record (Build_shr_record q false s)) = m / 2 ^ n) as ->
        by (destruct s; reflexivity).
      nia.
Qed.

Lemma fexp64_eq (e : Z) : fexp64 e = Z.max (e - 53) (-1074).
Proof. reflexivity. Qed.

(** A mantissa that fits needs no rounding. *)
Lemma binary_round_aux_exact (P : positive) (E : Z) :
  Zpos (digits2_pos P) <= 53 -> -1074 <= E <= 971 ->
  binary_round_aux 53 1024 false (Zpos P) E loc_Exact = S754_finite false P E.
Proof.
  intros Hd HE.
  assert (forall m, shr (Build_shr_record (Zpos P) false false) E
                      (fexp 53 1024 (Zdigits2 (Zpos P) + E) - E) = m ->
                    m = (Build_shr_record (Zpos P) false false, E)) as Hshr.
  { intros m <-. change (fexp 53 1024) with fexp64. rewrite fexp64_eq.
    cbn [Zdigits2].
    destruct (Z.max (Zpos (digits2_pos P) + E - 53) (-1074) - E) eqn:Hn;
      try reflexivity; lia. }
  unfold binary_round_aux, shr_fexp. cbn [shr_record_of_loc].
  rewrite (Hshr _ eq_refl). cbn [shr_m loc_of_shr_record round_nearest_even].
  rewrite (Hshr _ eq_refl). cbn [shr_m].
  replace (E <=? 1024 - 53) with true by (symmetry; apply Z.leb_le; lia).
  reflexivity.
Qed.

Lemma iter_xO_spec (p k : positive) :
  Zpos (Pos.iter xO p k) = Zpos p * 2 ^ Zpos k /\
  Zpos (digits2_pos (Pos.iter xO p k)) = Zpos (digits2_pos p) + Zpos k.
Proof.
  induction k as [|k IH] using Pos.peano_ind.
  - cbn [Pos.iter digits2_pos]. rewrite Pos2Z.inj_succ. split; lia.
  - rewrite Pos.iter_succ. cbn [digits2_pos].
    rewrite !Pos2Z.inj_succ, Pos2Z.inj_xO, Z.pow_succ_r by lia.
    destruct IH as [-> ->]. split; lia.
Qed.

(** Integers below 2^53 are doubles. *)
Lemma of_Z_exact (n : Z) :
  0 <= n < 2 ^ 53 -> Double.to_Z (Double.of_Z n) = Some n.
Proof.
  intros Hn. destruct n as [|p|p]; [reflexivity| |lia].
  pose proof (digits2_pos_bounds p) as [Hlo Hhi].
  assert (Zpos (digits2_pos p) <= 53) as Hd.
  { destruct (Z_le_gt_dec (Zpos (digits2_pos p)) 53); auto.
    assert (2 ^ 53 <= 2 ^ (Zpos (digits2_pos p) - 1)) by (apply Z.pow_le_mono_r; lia).
    lia. }
  unfold Double.of_Z, binary_normalize, binary_round, shl_align.
  change (fexp Double.prec Double.emax) with fexp64. rewrite fexp64_eq.
  replace (Z.max (Zpos (digits2_pos p) + 0 - 53) (-1074))
    with (Zpos (digits2_pos p) - 53) by lia.
  destruct (Zpos (digits2_pos p) - 53 - 0) as [|k|k] eqn:Hk; try lia.
  - change Double.prec with 53. change Double.emax with 1024.
    rewrite binary_round_aux_exact by lia.
    cbn [Double.to_Z]. cbn. f_equal. lia.
  - destruct (iter_xO_spec p k) as [Hv Hdig].
    change Double.prec with 53. change Double.emax with 1024.
    rewrite binary_round_aux_exact by lia.
    cbn [Double.to_Z].
    replace (0 <=? Zpos (digits2_pos p) - 53) with false
      by (symmetry; apply Z.leb_gt; lia).
    replace (- (Zpos (digits2_pos p) - 53)) with (Zpos k) by lia.
    rewrite Hv. assert (0 < 2 ^ Zpos k) by (apply Z.pow_pos_nonneg; lia).
    rewrite Z.mod_mul, Z.div_mul by lia. reflexivity.
Qed.

(** The product of two positive mantissas, rounded: the result is a
    zero, an infinity or a finite double, and it exceeds the exact
    product by at most half a unit of the place it was rounded at. *)
Lemma binary_round_aux_upper (P : positive) (E : Z) :
  exists m1 e1 m3 e3,
    e1 = E + Z.max (fexp64 (Zdigits2 (Zpos P) + E) - E) 0 /\
    0 <= m1 <= Zpos P + 1 /\
    m1 * 2 ^ (e1 - E) <= Zpos P + 2 ^ (fexp64 (Zdigits2 (Zpos P) + E) - E - 1) /\
    e3 = e1 + Z.max (fexp64 (Zdigits2 m1 + e1) - e1) 0 /\
    0 <= m3 /\
    m3 * 2 ^ (e3 - e1) <= m1 /\
    binary_round_aux 53 1024 false (Zpos P) E loc_Exact =
    match m3 with
    | Z0 => S754_zero false
    | Zpos m => if e3 <=? 971 then S754_finite false m e3 else S754_infinity false
    | Zneg _ => S754_nan
    end.
Proof.
  unfold binary_round_aux, shr_fexp. cbn [shr_record_of_loc].
  change (fexp 53 1024) with fexp64.
  pose proof (shr_round_upper (Zpos P) E (fexp64 (Zdigits2 (Zpos P) + E) - E) ltac:(lia)) as H1.
  destruct (shr (Build_shr_record (Zpos P) false false) E
              (fexp64 (Zdigits2 (Zpos P) + E) - E)) as [mrs1 e1].
  cbn zeta in H1. destruct H1 as (He1 & Hm1 & Hup).
  set (m1 := round_nearest_even (shr_m mrs1) (loc_of_shr_record mrs1)) in *.
  pose proof (shr_spec m1 e1 (fexp64 (Zdigits2 m1 + e1) - e1) ltac:(lia)) as H2.
  destruct (shr (Build_shr_record m1 false false) e1
              (fexp64 (Zdigits2 m1 + e1) - e1)) as [mrs3 e3].
  destruct H2 as (He3 & Hm3 & _).
  exists m1, e1, (shr_m mrs3), e3.
  assert (0 < 2 ^ Z.max (fexp64 (Zdigits2 m1 + e1) - e1) 0)
    by (apply Z.pow_pos_nonneg; lia).
  repeat split; try assumption; try lia.
  - replace (e1 - E) with (Z.max (fexp64 (Zdigits2 (Zpos P) + E) - E) 0) by lia.
    exact Hup.
  - rewrite Hm3. apply Z.div_pos; lia.
  - replace (e3 - e1) with (Z.max (fexp64 (Zdigits2 m1 + e1) - e1) 0) by lia.
    rewrite Hm3, Z.mul_comm. apply Z.mul_div_le. lia.
Qed.

(** The double 1. *)
Lemma of_Z_1 : Double.of_Z 1 = S754_finite false 4503599627370496 (-52).
Proof. reflexivity. Qed.

Lemma compare_cont_Eq_lt (p q : positive) :
  PosDef.Pos.compare_cont Eq p q = Lt -> (p < q)%positive.
Proof. intro H. exact H. Qed.

Lemma unit_interval_inv (random : spec_float) :
  unit_interval random = true ->
  (exists s, random = S754_zero s) \/
  (exists m e, random = S754_finite false m e /\
               -1074 <= e <= -53 /\ Zpos m < 2 ^ 53).
Proof.
  unfold unit_interval. rewrite !andb_true_iff. intros [[Hv Hle] Hlt].
  destruct random as [s|s| |s m e].
  - left. now exists s.
  - rewrite of_Z_1 in Hlt. destruct s; cbn in Hle, Hlt; discriminate.
  - cbn in Hle. discriminate.
  - right. destruct s; [cbn in Hle; discriminate|].
    exists m, e. split; [reflexivity|].
    unfold Double.valid, valid_binary, bounded, canonical_mantissa in Hv.
    apply andb_true_iff in Hv. destruct Hv as [Hc _].
    apply Z.eqb_eq in Hc.
    change (fexp Double.prec Double.emax) with fexp64 in Hc. rewrite fexp64_eq in Hc.
    pose proof (digits2_pos_bounds m) as [Hlo Hhi].
    rewrite of_Z_1 in Hlt. unfold Double.ltb, SFltb, SFcompare in Hlt.
    assert (e <= -53) as He.
    { destruct (Z.compare_spec e (-52)) as [Heq|Hl|Hg]; try lia; try discriminate.
      destruct (PosDef.Pos.compare_cont Eq m 4503599627370496) eqn:Hcmp; try discriminate.
      apply compare_cont_Eq_lt, Pos2Z.pos_lt_pos in Hcmp.
      assert (Zpos (digits2_pos m) = 53) as Hd by (clear - Hc Heq; lia).
      rewrite Hd in Hlo. change (2 ^ (53 - 1)) with 4503599627370496 in Hlo.
      clear - Hlo Hcmp. lia. }
    split; [clear - Hc He; lia|].
    assert (Zpos (digits2_pos m) <= 53) by (clear - Hc He; lia).
    assert (2 ^ Zpos (digits2_pos m) <= 2 ^ 53) by (apply Z.pow_le_mono_r; lia).
    clear - H0 Hhi.
    lia.
Qed.

(** The arithmetic behind the range: a value below [T * 10^6 * 2^33]
    at scale [2^33 * T] is below one million. *)
Lemma below_million (x T : Z) :
  0 < T -> x * (8589934592 * T) < T * 8589934592000000 -> x <= 999999.
Proof.
  intros HT H.
  assert (x * 8589934592 < 8589934592000000).
  { apply (Z.mul_lt_mono_pos_r T); [assumption|].
    replace (x * 8589934592 * T) with (x * (8589934592 * T)) by ring.
    replace (8589934592000000 * T) with (T * 8589934592000000) by ring.
    assumption. }
  lia.
Qed.

Lemma generateId_range (random : spec_float) :
  unit_interval random = true ->
  exists n, Double.to_Z (generateId random) = Some n /\ 0 <= n <= 999999.
Proof.
  intro H. apply unit_interval_inv in H.
  destruct H as [[s ->]|(m & e & -> & He & Hm)].
  - exists 0. split; [reflexivity|lia].
  - unfold generateId, Double.mul, million, SFmul.
    change Double.prec with 53. change Double.emax with 1024. cbn [xorb].
    destruct (binary_round_aux_upper (m * 8589934592000000) (e + -33))
      as (m1 & e1 & m3 & e3 & He1 & Hm1 & Hup & He3 & Hm3 & Hdown & ->).
    rewrite Pos2Z.inj_mul in *.
    remember (Zpos m) as M eqn:HM.
    assert (0 < M) as HM0 by (subst M; apply Pos2Z.is_pos).
    clear HM m.
    change (Zpos 8589934592000000) with 8589934592000000 in *.
    remember (M * 8589934592000000) as P eqn:HP.
    remember (e + -33) as E eqn:HE.
    remember (2 ^ (- e)) as T eqn:HT.
    assert (2 ^ 53 <= T) as HT53 by (subst T; apply Z.pow_le_mono_r; lia).
    change (2 ^ 53) with 9007199254740992 in *.
    assert (0 < P < 2 ^ 106) as HP106.
    { change (2 ^ 106) with (9007199254740992 * 9007199254740992). subst P.
      split; [lia|].
      apply Z.mul_lt_mono_nonneg; lia. }
    pose proof (Zdigits2_le P 106 ltac:(lia) ltac:(lia)) as HdP.
    rewrite fexp64_eq in He1, Hup.
    assert (2 ^ (Z.max (Zdigits2 P + E - 53) (-1074) - E - 1) <= 2 ^ 52) as Hulp
      by (apply Z.pow_le_mono_r; lia).
    change (2 ^ 52) with 4503599627370496 in Hulp.
    assert (0 <= m1 < 2 ^ 107) as Hm107.
    { change (2 ^ 107) with (2 ^ 106 * 2). lia. }
    pose proof (Zdigits2_le m1 107 ltac:(lia) Hm107) as Hdm1.
    rewrite fexp64_eq in He3.
    assert (E <= e1 <= e3 /\ e3 <= 21) as (Hee & Hee3) by lia.
    assert (m3 * 2 ^ (e3 - E) < T * 8589934592000000) as Hfinal.
    { replace (e3 - E) with ((e3 - e1) + (e1 - E)) by lia.
      rewrite Z.pow_add_r by lia.
      assert (0 <= 2 ^ (e1 - E)) by (apply Z.pow_nonneg; lia).
      assert (m3 * 2 ^ (e3 - e1) * 2 ^ (e1 - E) <= m1 * 2 ^ (e1 - E))
        by (apply Z.mul_le_mono_nonneg_r; lia).
      assert (P <= (T - 1) * 8589934592000000)
        by (subst P; apply Z.mul_le_mono_nonneg_r; lia).
      rewrite Z.mul_assoc. lia. }
    assert (2 ^ (- E) = 8589934592 * T) as HE2.
    { subst E T. replace (- (e + -33)) with (33 + - e) by lia.
      rewrite Z.pow_add_r by lia. reflexivity. }
    assert (0 < T) as HT0 by lia.
    destruct m3 as [|q|q]; [exists 0; split; [reflexivity|lia] | | lia].
    replace (e3 <=? 971) with true by (symmetry; apply Z.leb_le; lia).
    cbn [Double.floor].
    destruct (Z.leb_spec 0 e3) as [Hpos|Hneg].
    + exists (Zpos q * 2 ^ e3). cbn [Double.to_Z].
      replace (0 <=? e3) with true by (symmetry; apply Z.leb_le; lia).
      cbn [cond_Zopp]. split; [reflexivity|].
      assert (0 < 2 ^ e3) by (apply Z.pow_pos_nonneg; lia).
      split; [lia|].
      apply (below_million _ T HT0).
      rewrite <- HE2, <- Z.mul_assoc, <- Z.pow_add_r by lia.
      replace (e3 + - E) with (e3 - E) by lia. exact Hfinal.
    + exists (Zpos q / 2 ^ (- e3)). cbn [cond_Zopp].
      rewrite Z.shiftl_div_pow2 by lia.
      assert (0 < 2 ^ (- e3)) by (apply Z.pow_pos_nonneg; lia).
      assert (0 <= Zpos q / 2 ^ (- e3)) as Hn0 by (apply Z.div_pos; lia).
      pose proof (Z.mul_div_le (Zpos q) (2 ^ (- e3)) ltac:(lia)) as Hfl.
      assert (2 ^ (- E) = 2 ^ (- e3) * 2 ^ (e3 - E)) as Hsplit
        by (rewrite <- Z.pow_add_r by lia; f_equal; lia).
      assert (0 <= 2 ^ (e3 - E)) by (apply Z.pow_nonneg; lia).
      assert (Zpos q / 2 ^ (- e3) <= 999999) as Hn.
      { apply (below_million _ T HT0).
        rewrite <- HE2, Hsplit.
        assert (2 ^ (- e3) * (Zpos q / 2 ^ (- e3)) * 2 ^ (e3 - E) <= Zpos q * 2 ^ (e3 - E))
          by (apply Z.mul_le_mono_nonneg_r; lia).
        rewrite Z.mul_assoc, (Z.mul_comm (Zpos q / 2 ^ (- e3))). lia. }
      split; [|lia].
      apply of_Z_exact. change (2 ^ 53) with 9007199254740992. lia.
Qed.

Section Properties.

Variable JSON_parse : string -> option JSON.
Variable JSON_stringify : JSON -> string.
Variable Number_toString : spec_float -> string.

(** ** makeHttpRequest *)

Lemma makeHttpRequest_completion (net : Network) (url : string) (data : JSONRPCRequest) :
  completion (makeHttpRequest JSON_parse net url data) =
  match net url data with
  | ExecutorThrows e | RequestError e => Throw e
  | RequestTimeout _ => Throw (mkError "Request timeout")
  | ResponseCutOff _ _ => Pending
  | ResponseEnd statusCode body =>
      if status_ok statusCode then
        match JSON_parse body with
        | Some parsed => Normal parsed
        | None => Throw (mkError ("Invalid JSON response: " ++ body))
        end
      else Throw (mkError ("HTTP " ++ status_text statusCode ++ ": " ++ body))
  end.
Proof.
  unfold makeHttpRequest.
  destruct (net url data) as [e|e|[|]|statusCode body|statusCode received];
    try reflexivity.
  simpl. destruct (status_ok statusCode); [|reflexivity].
  destruct (JSON_parse body); reflexivity.
Qed.

Lemma makeHttpRequest_posted (net : Network) (url : string) (data : JSONRPCRequest) :
  posted (trace (makeHttpRequest JSON_parse net url data)) =
  match net url data with
  | ExecutorThrows _ => []
  | _ => [data]
  end.
Proof.
  unfold makeHttpRequest.
  destruct (net url data) as [e|e|[|]|statusCode body|statusCode received];
    try reflexivity.
  simpl. destruct (status_ok statusCode); [|reflexivity].
  destruct (JSON_parse body); reflexivity.
Qed.

Lemma answers_completion (net : Network) (url : string) (data : JSONRPCRequest) (response : JSON) :
  answers JSON_parse (net url data) response ->
  completion (makeHttpRequest JSON_parse net url data) = Normal response.
Proof.
  intros (statusCode & body & Hx & Hs & Hp).
  rewrite makeHttpRequest_completion, Hx.
  apply status_ok_spec in Hs. rewrite Hs, Hp. reflexivity.
Qed.

(** C7. [makeHttpRequest] resolves, with the parsed body, exactly when
    the response ends with a status in 200-299 and a body that parses.
    A response with any other status rejects with an error whose
    message is "HTTP <status>: " followed by the raw body; a response
    with a status in 200-299 and a body that does not parse rejects
    with "Invalid JSON response: " followed by the raw body. *)
Theorem makeHttpRequest_resolves_iff_2xx_and_parses
    (net : Network) (url : string) (data : JSONRPCRequest) :
  (forall parsed,
      completion (makeHttpRequest JSON_parse net url data) = Normal parsed <->
      answers JSON_parse (net url data) parsed) /\
  (forall statusCode body,
      net url data = ResponseEnd statusCode body ->
      ~ in_2xx statusCode ->
      completion (makeHttpRequest JSON_parse net url data) =
      Throw (mkError ("HTTP " ++ status_text statusCode ++ ": " ++ body))) /\
  (forall statusCode body,
      net url data = ResponseEnd statusCode body ->
      in_2xx statusCode ->
      JSON_parse body = None ->
      completion (makeHttpRequest JSON_parse net url data) =
      Throw (mkError ("Invalid JSON response: " ++ body))).
Proof.
  repeat split.
  - rewrite makeHttpRequest_completion.
    destruct (net url data) as [e|e|hang_up|statusCode body|statusCode received] eqn:Hx;
      try discriminate.
    destruct (status_ok statusCode) eqn:Hs; [|discriminate].
    destruct (JSON_parse body) as [j|] eqn:Hp; [|discriminate].
    intros [= <-]. exists statusCode, body.
    repeat split; auto. now apply status_ok_spec.
  - apply answers_completion.
  - intros statusCode body Hx Hs.
    rewrite makeHttpRequest_completion, Hx, (status_ok_false _ Hs). reflexivity.
  - intros statusCode body Hx Hs Hp.
    apply status_ok_spec in Hs.
    rewrite makeHttpRequest_completion, Hx, Hs, Hp. reflexivity.
Qed.

(** ** The handlers *)

#[local] Abbreviation run_handler net url m request random :=
  (handler JSON_parse JSON_stringify Number_toString net url m request random).
#[local] Abbreviation call net url m request random :=
  (makeHttpRequest JSON_parse net url (outgoing m request random)).

Ltac unfold_handler :=
  unfold handler, handle_tools_list, handle_tools_call, handle_resources_list,
    handle_resources_read, handle_prompts_list, handle_prompts_get, outgoing, method_name.

Ltac step_completion :=
  repeat (rewrite ?completion_bind, ?completion_try; cbn [completion log perform eval]).

(** A rejected call: the [catch] block of the handler. *)
Lemma handler_rejected (net : Network) (url : string) (m : Method)
    (request : Request) (random : spec_float) (e : JsError) :
  completion (call net url m request random) = Throw e ->
  completion (run_handler net url m request random) =
  if is_tool m then Throw (mkError (failure_prefix m ++ message e))
  else Normal (fallback m).
Proof.
  intro H. destruct m; revert H; unfold_handler; intro H;
    step_completion; rewrite H; step_completion; reflexivity.
Qed.

(** A call that never settles: neither the rest of the [try] block
    nor the [catch] block runs, and the handler never returns. *)
Lemma handler_pending (net : Network) (url : string) (m : Method)
    (request : Request) (random : spec_float) :
  completion (call net url m request random) = Pending ->
  completion (run_handler net url m request random) = Pending.
Proof.
  intro H. destruct m; revert H; unfold_handler; intro H;
    step_completion; rewrite H; reflexivity.
Qed.

Lemma cut_off_completion (net : Network) (url : string) (data : JSONRPCRequest) :
  cut_off (net url data) ->
  completion (makeHttpRequest JSON_parse net url data) = Pending.
Proof.
  intros (statusCode & received & Hx).
  rewrite makeHttpRequest_completion, Hx. reflexivity.
Qed.

(** The steps of a handler other than the call post nothing. *)
Lemma posted_bind {A B} (c : Async A) (k : A -> Async B) :
  posted (trace (bind c k)) =
  match completion c with
  | Normal a => (posted (trace c) ++ posted (trace (k a)))%list
  | Throw _ | Pending => posted (trace c)
  end.
Proof. rewrite trace_bind. destruct (completion c); auto using posted_app. Qed.

Lemma posted_try {A} (body : Async A) (h : JsError -> Async A) :
  posted (trace (try_catch body h)) =
  match completion body with
  | Normal _ | Pending => posted (trace body)
  | Throw e => (posted (trace body) ++ posted (trace (h e)))%list
  end.
Proof. rewrite trace_try. destruct (completion body); auto using posted_app. Qed.

Lemma posted_eval {A} (c : Completion A) : posted (trace (eval c)) = [].
Proof. reflexivity. Qed.

Lemma posted_log_interpolating (v : value) :
  posted (trace (log_interpolating Number_toString v)) = [].
Proof.
  destruct v as [x|]; [|reflexivity].
  unfold log_interpolating. rewrite posted_bind.
  destruct (completion (eval (ToString Number_toString x))); reflexivity.
Qed.

Lemma posted_throw_if_error (response : JSON) :
  posted (trace (throw_if_error Number_toString response)) = [].
Proof.
  unfold throw_if_error. rewrite posted_bind, posted_eval.
  destruct (completion (eval (member response "error"))) as [[e|]|e|]; try reflexivity.
  cbn [app]. destruct (truthy (Some e)); [|reflexivity].
  rewrite posted_bind, posted_eval.
  destruct (completion (eval (member e "message"))) as [msg|e'|]; try reflexivity.
  rewrite posted_bind, posted_eval.
  destruct (completion (eval (new_Error Number_toString msg))); reflexivity.
Qed.

Ltac quiet_steps :=
  repeat first
    [ rewrite posted_bind
    | rewrite posted_try
    | rewrite posted_throw_if_error
    | rewrite posted_log_interpolating
    | rewrite posted_eval
    | progress cbn [completion trace posted log perform eval app]
    | match goal with
      | |- context [match completion ?c with _ => _ end] => destruct (completion c)
      | |- context [match ?c with Normal _ => _ | Throw _ => _ | Pending => _ end] =>
          destruct c
      end ];
  rewrite ?app_nil_r; try reflexivity.

(** One call per invocation, unless the executor throws before writing. *)
Lemma handler_posted (net : Network) (url : string) (m : Method)
    (request : Request) (random : spec_float) :
  posted (trace (run_handler net url m request random)) =
  match net url (outgoing m request random) with
  | ExecutorThrows _ => []
  | _ => [outgoing m request random]
  end.
Proof.
  rewrite <- makeHttpRequest_posted.
  destruct m; unfold_handler; quiet_steps.
Qed.

(** C10. The three list methods always post the empty object as
    [params], whatever the incoming request carries; the other three
    post the incoming [params] as they are.  A handler posts exactly
    one request when the executor does not throw. *)
Theorem list_methods_post_empty_params
    (net : Network) (url : string) (m : Method) (request : Request) (random : spec_float) :
  (In m [ListTools; ListResources; ListPrompts] ->
   forall data, In data (posted (trace (run_handler net url m request random))) ->
                params data = Some (JObj [])) /\
  (In m [CallTool; ReadResource; GetPrompt] ->
   forall data, In data (posted (trace (run_handler net url m request random))) ->
                params data = request_params request) /\
  ((forall data e, net url data <> ExecutorThrows e) ->
   exists data, posted (trace (run_handler net url m request random)) = [data] /\
                method data = method_name m).
Proof.
  rewrite handler_posted. repeat split.
  - intros Hm data Hin.
    assert (data = outgoing m request random) as ->
      by (destruct (net url (outgoing m request random)); simpl in Hin; intuition congruence).
    simpl in Hm. decompose [or] Hm; subst; try reflexivity; contradiction.
  - intros Hm data Hin.
    assert (data = outgoing m request random) as ->
      by (destruct (net url (outgoing m request random)); simpl in Hin; intuition congruence).
    simpl in Hm. decompose [or] Hm; subst; try reflexivity; contradiction.
  - intro Hnet. exists (outgoing m request random). split.
    + destruct (net url (outgoing m request random)) eqn:Hx; try reflexivity.
      now apply Hnet in Hx.
    + destruct m; reflexivity.
Qed.

(** C9. The reply of a handler is a function of the response it
    awaited: two invocations of the handler of a method, for any two
    incoming requests, random draws, URLs and networks, that receive the
    same response complete in the same way. *)
Theorem reply_is_a_function_of_the_response
    (net1 net2 : Network) (url1 url2 : string) (m : Method)
    (request1 request2 : Request) (random1 random2 : spec_float) (response : JSON) :
  answers JSON_parse (net1 url1 (outgoing m request1 random1)) response ->
  answers JSON_parse (net2 url2 (outgoing m request2 random2)) response ->
  completion (run_handler net1 url1 m request1 random1) =
  completion (run_handler net2 url2 m request2 random2).
Proof.
  intros H1 H2.
  apply answers_completion in H1. apply answers_completion in H2.
  destruct m; revert H1 H2; unfold_handler; intros H1 H2;
    step_completion; rewrite H1, H2; reflexivity.
Qed.

(** String conversion is synchronous: it returns or throws. *)
Lemma ToString_settles (v : JSON) : ToString Number_toString v <> Pending.
Proof.
  revert v.
  fix IH 1. intros [| [|] | x | s | items | members]; cbn [ToString]; try discriminate.
  - induction items as [|x rest IHrest]; [discriminate|].
    assert (match x with JNull => Normal "" | _ => ToString Number_toString x end
            <> Pending) as Hx
      by (pose proof (IH x); destruct x; try discriminate; assumption).
    destruct (match x with JNull => Normal "" | _ => ToString Number_toString x end)
      as [s|e|]; [|discriminate|contradiction].
    destruct rest as [|y rest']; [discriminate|].
    match goal with
    | |- match ?j with _ => _ end <> _ => destruct j; [discriminate|discriminate|]
    end.
    exfalso. apply IHrest. reflexivity.
  - destruct (lookup "toString" members); discriminate.
Qed.

(** A truthy [error] member makes a tool handler throw, with the
    method's prefix, before the result is looked at. *)
Lemma tool_error_member_throws (net : Network) (url : string) (m : Method)
    (request : Request) (random : spec_float) (members : list (string * JSON)) :
  is_tool m = true ->
  completion (call net url m request random) = Normal (JObj members) ->
  truthy (lookup "error" members) = true ->
  exists cause,
    completion (run_handler net url m request random) =
    Throw (mkError (failure_prefix m ++ cause)) /\
    (forall err msg, lookup "error" members = Some (JObj err) ->
                     lookup "message" err = Some (JStr msg) -> cause = msg).
Proof.
  intros Hm H Herr.
  destruct (lookup "error" members) as [e|] eqn:He; [|discriminate].
  destruct m; try discriminate; revert H; unfold_handler; intro H;
    step_completion; rewrite H; unfold throw_if_error;
    step_completion; cbn [member]; rewrite He, Herr; step_completion.
  all: destruct (member e "message") as [msg|e'|] eqn:Hmsg;
    [|destruct e; discriminate|destruct e; discriminate].
  all: assert (new_Error Number_toString msg <> Pending) as Hsettles
    by (destruct msg as [v|]; [|discriminate]; cbn [new_Error];
        pose proof (ToString_settles v);
        destruct (ToString Number_toString v); congruence).
  all: destruct (new_Error Number_toString msg) as [err|err|] eqn:Hnew;
    [| |contradiction];
    exists (message err); (split; [reflexivity|]).
  all: intros fields text [= ->] Hl; cbn in Hmsg; injection Hmsg as <-;
    rewrite Hl in Hnew; cbn in Hnew;
    first [discriminate | injection Hnew as <-; reflexivity].
Qed.

(** C4. For the two tool methods, a response that carries an [error]
    object never completes the handler normally: the handler throws,
    with the method's prefix. *)
Theorem tool_error_response_is_a_failure
    (net : Network) (url : string) (m : Method) (request : Request) (random : spec_float)
    (members err : list (string * JSON)) :
  is_tool m = true ->
  answers JSON_parse (net url (outgoing m request random)) (JObj members) ->
  lookup "error" members = Some (JObj err) ->
  exists cause,
    completion (run_handler net url m request random) =
    Throw (mkError (failure_prefix m ++ cause)).
Proof.
  intros Hm Hx He.
  destruct (tool_error_member_throws net url m request random members Hm)
    as (cause & Hc & _).
  - now apply answers_completion.
  - rewrite He. reflexivity.
  - now exists cause.
Qed.

(** What [makeHttpRequest] rejects with on a transport, protocol or
    decode failure, and resolves with on a JSON-RPC error. *)
Lemma settled_failure_completion (net : Network) (url : string) (data : JSONRPCRequest)
    (cause : string) :
  SettledFailure JSON_parse (net url data) cause ->
  (exists e, completion (makeHttpRequest JSON_parse net url data) = Throw e /\
             message e = cause) \/
  (exists response, completion (makeHttpRequest JSON_parse net url data) = Normal response /\
                    error_response response cause).
Proof.
  intro H. rewrite makeHttpRequest_completion.
  inversion H as [e Hx|e Hx|hang_up Hx|statusCode body Hs Hx|statusCode body Hs Hp Hx
                 |x response msg Ha He Hx]; subst.
  - left. now exists e.
  - left. now exists e.
  - left. eexists; split; reflexivity.
  - left. rewrite (status_ok_false _ Hs). eexists; split; reflexivity.
  - left. apply status_ok_spec in Hs. rewrite Hs, Hp. eexists; split; reflexivity.
  - right. exists response. split; [|assumption].
    rewrite <- makeHttpRequest_completion. now apply answers_completion.
Qed.

(** For the two tool methods, every remote failure on which the call
    settles (transport error, timeout, HTTP status, undecodable body,
    JSON-RPC error) makes the handler throw an error whose message is
    the method's prefix followed by the message of the cause. *)
Theorem settled_tool_failure_is_propagated_with_prefix
    (net : Network) (url : string) (m : Method) (request : Request) (random : spec_float)
    (cause : string) :
  is_tool m = true ->
  SettledFailure JSON_parse (net url (outgoing m request random)) cause ->
  completion (run_handler net url m request random) =
  Throw (mkError (failure_prefix m ++ cause)).
Proof.
  intros Hm H.
  destruct (settled_failure_completion _ _ _ _ H) as [(e & He & <-)|(response & Hr & Herr)].
  - rewrite (handler_rejected _ _ _ _ _ _ He), Hm. reflexivity.
  - destruct Herr as (members & err & code & -> & Herr & _ & Hmsg & _).
    destruct (tool_error_member_throws net url m request random members Hm Hr)
      as (c & Hc & Hcause); [rewrite Herr; reflexivity|].
    rewrite Hc, (Hcause _ _ Herr Hmsg). reflexivity.
Qed.

(** For the four other methods, every remote failure on which the call
    settles (transport error, timeout, HTTP status, undecodable body,
    well-formed JSON-RPC error) makes the handler complete normally
    with the literal fallback of the method. *)
Theorem settled_failure_yields_fallback
    (net : Network) (url : string) (m : Method) (request : Request) (random : spec_float)
    (cause : string) :
  is_tool m = false ->
  SettledFailure JSON_parse (net url (outgoing m request random)) cause ->
  completion (run_handler net url m request random) = Normal (fallback m).
Proof.
  intros Hm H.
  destruct (settled_failure_completion _ _ _ _ H) as [(e & He & _)|(response & Hr & Herr)].
  - rewrite (handler_rejected _ _ _ _ _ _ He), Hm. reflexivity.
  - destruct Herr as (members & err & code & -> & _ & _ & _ & Hres).
    destruct m; try discriminate; revert Hr; unfold_handler; intro Hr;
      step_completion; rewrite Hr; step_completion; cbn [member];
      rewrite Hres; reflexivity.
Qed.

(** C1, at the failing input.  A response cut off in the middle of the
    body is a remote failure, and on it none of the four handlers
    other than the tool ones returns anything, its fallback included:
    the call stays pending and the handler with it.  The request was
    posted. *)
Theorem cut_off_response_leaves_other_handlers_pending
    (net : Network) (url : string) (m : Method) (request : Request) (random : spec_float) :
  is_tool m = false ->
  cut_off (net url (outgoing m request random)) ->
  RemoteFailure JSON_parse (net url (outgoing m request random)) /\
  completion (run_handler net url m request random) = Pending /\
  completion (run_handler net url m request random) <> Normal (fallback m) /\
  posted (trace (run_handler net url m request random)) = [outgoing m request random].
Proof.
  intros _ Hx.
  assert (completion (run_handler net url m request random) = Pending) as Hp
    by apply handler_pending, cut_off_completion, Hx.
  split; [right; exact Hx|]. split; [exact Hp|]. split.
  - rewrite Hp. discriminate.
  - rewrite handler_posted. destruct Hx as (statusCode & received & ->). reflexivity.
Qed.

(** C2, at the failing input.  On a response cut off in the middle of
    the body neither tool handler throws: the call stays pending and
    the handler with it, so no failure, prefixed or not, reaches the
    client.  The request was posted. *)
Theorem cut_off_response_leaves_tool_handlers_pending
    (net : Network) (url : string) (m : Method) (request : Request) (random : spec_float) :
  is_tool m = true ->
  cut_off (net url (outgoing m request random)) ->
  RemoteFailure JSON_parse (net url (outgoing m request random)) /\
  completion (run_handler net url m request random) = Pending /\
  (forall cause,
      completion (run_handler net url m request random) <>
      Throw (mkError (failure_prefix m ++ cause))) /\
  posted (trace (run_handler net url m request random)) = [outgoing m request random].
Proof.
  intros _ Hx.
  assert (completion (run_handler net url m request random) = Pending) as Hp
    by apply handler_pending, cut_off_completion, Hx.
  split; [right; exact Hx|]. split; [exact Hp|]. split.
  - intro cause. rewrite Hp. discriminate.
  - rewrite handler_posted. destruct Hx as (statusCode & received & ->). reflexivity.
Qed.

(** C6. A successful response (no [error], an object as [result])
    whose result carries the array a method forwards is answered with
    that array under the same key and nothing else: [tools],
    [content], [resources], [contents], [prompts]; for [prompts/get]
    the [messages] array together with the [description] string (the
    empty string when the result has none). *)
Theorem successful_result_is_forwarded
    (net : Network) (url : string) (m : Method) (request : Request) (random : spec_float)
    (members result : list (string * JSON)) (items : list JSON) :
  answers JSON_parse (net url (outgoing m request random)) (JObj members) ->
  lookup "error" members = None ->
  lookup "result" members = Some (JObj result) ->
  lookup (payload_key m) result = Some (JArr items) ->
  (m <> GetPrompt ->
   completion (run_handler net url m request random) =
   Normal (JObj [(payload_key m, JArr items)])) /\
  (m = GetPrompt ->
   forall d, lookup "description" result = Some (JStr d) ->
   completion (run_handler net url m request random) =
   Normal (JObj [("description", JStr d); ("messages", JArr items)])) /\
  (m = GetPrompt ->
   lookup "description" result = None ->
   completion (run_handler net url m request random) =
   Normal (JObj [("description", JStr ""); ("messages", JArr items)])).
Proof.
  intros Hx Herr Hres Hpay. apply answers_completion in Hx.
  assert (forall d, or_else (Some (JStr d)) (JStr "") = JStr d) as Hdesc
    by (intros [|c d]; reflexivity).
  destruct m; revert Hx; unfold_handler; intro Hx; cbn [payload_key] in Hpay;
    repeat split; try congruence; intros;
    step_completion; rewrite Hx; unfold throw_if_error;
    step_completion; cbn [member opt_member]; rewrite ?Herr, ?Hres;
    step_completion; cbn [opt_member]; rewrite ?Hpay;
    try match goal with H : lookup "description" _ = _ |- _ => rewrite H end;
    rewrite ?Hdesc; reflexivity.
Qed.

(** C5, as the code has it.  For [tools/call], a successful response
    whose result holds a truthy [content] (every array is) is answered
    with that content.  When [content] is missing or falsy ([null],
    [false], [0], the empty string) the answer is one text item whose
    text is [JSON.stringify] of the result, or of the empty object when
    the result itself is missing or falsy. *)
Theorem tool_call_content_or_stringified_result
    (net : Network) (url : string) (request : Request) (random : spec_float)
    (members : list (string * JSON)) :
  answers JSON_parse (net url (outgoing CallTool request random)) (JObj members) ->
  truthy (lookup "error" members) = false ->
  (forall c, opt_member (lookup "result" members) "content" = Some c ->
             truthy (Some c) = true ->
             completion (run_handler net url CallTool request random) =
             Normal (JObj [("content", c)])) /\
  (forall r, truthy (opt_member (lookup "result" members) "content") = false ->
             lookup "result" members = Some r ->
             truthy (Some r) = true ->
             completion (run_handler net url CallTool request random) =
             Normal (JObj [("content",
               JArr [JObj [("type", JStr "text");
                           ("text", JStr (JSON_stringify r))]])])) /\
  (truthy (lookup "result" members) = false ->
   completion (run_handler net url CallTool request random) =
   Normal (JObj [("content",
     JArr [JObj [("type", JStr "text");
                 ("text", JStr (JSON_stringify (JObj [])))]])])).
Proof.
  intros Hx Herr. apply answers_completion in Hx.
  assert (completion (run_handler net url CallTool request random) =
          Normal (JObj [("content",
            or_else (opt_member (lookup "result" members) "content")
              (JArr [JObj [("type", JStr "text");
                           ("text", JStr (JSON_stringify
                              (or_else (lookup "result" members) (JObj []))))]]))]))
    as ->.
  { revert Hx; unfold_handler; intro Hx.
    step_completion; rewrite Hx; unfold throw_if_error;
      step_completion; cbn [member].
    destruct (lookup "error" members) as [e|]; [rewrite Herr|]; reflexivity. }
  repeat split.
  - intros c -> Hc. unfold or_else at 1. rewrite Hc. reflexivity.
  - intros r Hc Hres Hr. rewrite Hres in *. unfold or_else.
    destruct (opt_member (Some r) "content") as [c|]; rewrite ?Hc, Hr; reflexivity.
  - intro Hr.
    assert (opt_member (lookup "result" members) "content" = None) as ->.
    { destruct (lookup "result" members) as [[| | | | |fields]|]; try reflexivity.
      discriminate. }
    unfold or_else.
    destruct (lookup "result" members) as [r|]; rewrite ?Hr; reflexivity.
Qed.

(** C3, as the code has it.  On a draw from [0, 1) [generateId] is an
    integer from 0 to 999999, zero included; and the id of every
    request a handler posts is [generateId] of the draw: it is computed
    from the random draw alone, whatever the incoming request and its
    id are (and may coincide with that id). *)
Theorem generated_id_in_range_and_from_the_draw_alone
    (net : Network) (url : string) (m : Method) (request : Request) (random : spec_float) :
  (unit_interval random = true ->
   exists n, Double.to_Z (generateId random) = Some n /\ 0 <= n <= 999999) /\
  (forall data, In data (posted (trace (run_handler net url m request random))) ->
                id data = JNum (generateId random)).
Proof.
  split; [apply generateId_range|].
  intros data Hin. rewrite handler_posted in Hin.
  assert (data = outgoing m request random) as ->
    by (destruct (net url (outgoing m request random)); simpl in Hin; intuition congruence).
  destruct m; reflexivity.
Qed.

(** ** start *)

Lemma completion_start (net : Network) (connect : Completion unit) (this : MCPHTTPBridge) :
  completion (start JSON_parse net connect this) =
  match completion (makeHttpRequest JSON_parse net (serverUrl this) initialize_request) with
  | Pending => Pending
  | _ =>
      match connect with
      | Normal _ =>
          Normal (mkBridge (serverUrl this) (mkServer (requestHandlers (server this)) true))
      | Throw e => Throw e
      | Pending => Pending
      end
  end.
Proof.
  unfold start, server_connect.
  destruct (completion (makeHttpRequest JSON_parse net (serverUrl this) initialize_request))
    as [response|e|] eqn:Hp;
    destruct connect as [[]|e'|];
    step_completion; rewrite Hp; step_completion; reflexivity.
Qed.

Ltac probe_cases x :=
  destruct x as [? | ? | [|] | statusCode body | ? ?];
  [ | | | | destruct (status_ok statusCode); [destruct (JSON_parse body)|] | ].

Lemma trace_start (net : Network) (this : MCPHTTPBridge) :
  trace (start JSON_parse net (Normal tt) this) =
  (Logged :: trace (makeHttpRequest JSON_parse net (serverUrl this) initialize_request) ++
   match completion (makeHttpRequest JSON_parse net (serverUrl this) initialize_request) with
   | Normal _ => [Logged; Logged; Connected; Logged; Logged]
   | Throw _ => [Logged; Logged; Logged; Connected; Logged; Logged]
   | Pending => []
   end)%list.
Proof.
  unfold start, server_connect, makeHttpRequest.
  probe_cases (net (serverUrl this) initialize_request); reflexivity.
Qed.

Lemma makeHttpRequest_trace (net : Network) (url : string) (data : JSONRPCRequest) :
  Forall (fun e => e = Logged \/ e = Posted url data)
    (trace (makeHttpRequest JSON_parse net url data)).
Proof.
  unfold makeHttpRequest.
  probe_cases (net url data);
    cbv [trace bind perform log eval completion app];
    repeat first [apply Forall_nil | apply Forall_cons; [auto|]].
Qed.


(** C8, at the failing input.  When the response to the probe is cut
    off in the middle of the body, the probe's promise stays pending
    and [start] with it, whatever [server.connect] would do: after the
    first log line and the probe nothing happens, the transport is
    never attached, and the bridge serves no request. *)
Theorem cut_off_probe_leaves_start_pending
    (net : Network) (url : string) (connect : Completion unit) :
  cut_off (net url initialize_request) ->
  completion (start JSON_parse net connect (constructor url)) = Pending /\
  trace (start JSON_parse net connect (constructor url)) =
    [Logged; Posted url initialize_request] /\
  (forall request random,
      on_request JSON_parse JSON_stringify Number_toString net (constructor url)
        request random = None).
Proof.
  intros (statusCode & received & Hx). split; [|split].
  - rewrite completion_start. cbn [constructor serverUrl].
    rewrite makeHttpRequest_completion, Hx. reflexivity.
  - unfold start, server_connect, makeHttpRequest. cbn [constructor serverUrl].
    rewrite Hx. destruct connect as [[]|e|]; reflexivity.
  - reflexivity.
Qed.


(** ** Further properties of the handlers *)

Lemma settled_completion (net : Network) (url : string) (data : JSONRPCRequest) :
  ~ cut_off (net url data) ->
  completion (makeHttpRequest JSON_parse net url data) <> Pending.
Proof.
  intro H. rewrite makeHttpRequest_completion.
  destruct (net url data) as [e|e|h|statusCode body|statusCode received];
    try discriminate.
  - destruct (status_ok statusCode); [destruct (JSON_parse body)|]; discriminate.
  - exfalso. apply H. now exists statusCode, received.
Qed.

(** The four handlers other than the tool ones never reject.  Whenever
    the call settles, in whatever way (a transport failure, any status,
    a malformed or [null] body, any response), they complete normally
    with a reply. *)
Theorem other_handlers_reply_when_the_call_settles
    (net : Network) (url : string) (m : Method) (request : Request) (random : spec_float) :
  is_tool m = false ->
  ~ cut_off (net url (outgoing m request random)) ->
  exists reply, completion (run_handler net url m request random) = Normal reply.
Proof.
  intros Hm Hx. apply settled_completion in Hx.
  destruct m; try discriminate; revert Hx; unfold_handler; intro Hx; step_completion;
    match goal with
    | |- context [completion (makeHttpRequest ?p ?n ?u ?d)] =>
        destruct (completion (makeHttpRequest p n u d)) as [response|e|]
    end; try contradiction; step_completion;
    try (destruct response; cbn [member]); step_completion; eexists; reflexivity.
Qed.

(** Whatever a tool handler throws carries the method's prefix: no
    error of the remote side or of the engine reaches the client
    without it. *)
Theorem tool_handlers_throw_only_with_prefix
    (net : Network) (url : string) (m : Method) (request : Request) (random : spec_float)
    (e : JsError) :
  is_tool m = true ->
  completion (run_handler net url m request random) = Throw e ->
  exists cause, message e = failure_prefix m ++ cause.
Proof.
  intros Hm.
  destruct m; try discriminate; unfold_handler;
    rewrite completion_bind; cbn [completion log perform eval];
    rewrite completion_try;
    match goal with
    | |- context [match completion ?c with _ => _ end] => destruct (completion c) as [a|e0|]
    end; try discriminate;
    rewrite completion_bind; cbn [completion log perform eval];
    intros [= <-]; eexists; reflexivity.
Qed.

(** The four other handlers do not look at the [error] member: a
    response that carries a result with the method's array is answered
    with that array, whether or not it also carries an error. *)
Theorem other_handlers_ignore_error_member
    (net : Network) (url : string) (m : Method) (request : Request) (random : spec_float)
    (members result : list (string * JSON)) (items : list JSON) :
  In m [ListResources; ReadResource; ListPrompts] ->
  answers JSON_parse (net url (outgoing m request random)) (JObj members) ->
  lookup "result" members = Some (JObj result) ->
  lookup (payload_key m) result = Some (JArr items) ->
  completion (run_handler net url m request random) =
  Normal (JObj [(payload_key m, JArr items)]).
Proof.
  intros Hm Hx Hres Hpay. apply answers_completion in Hx.
  simpl in Hm. decompose [or] Hm; subst; try contradiction;
    revert Hx; unfold_handler; intro Hx; cbn [payload_key] in Hpay;
    step_completion; rewrite Hx; step_completion; cbn [member opt_member];
    rewrite Hres; step_completion; cbn [opt_member]; rewrite Hpay; reflexivity.
Qed.

(** A successful response without the member a list method forwards
    (no result, a result that is not an object, or an object without
    the key) is answered with the empty array under that key. *)
Theorem missing_member_defaults_to_empty
    (net : Network) (url : string) (m : Method) (request : Request) (random : spec_float)
    (members : list (string * JSON)) :
  In m [ListTools; ListResources; ReadResource; ListPrompts] ->
  answers JSON_parse (net url (outgoing m request random)) (JObj members) ->
  truthy (lookup "error" members) = false ->
  opt_member (lookup "result" members) (payload_key m) = None ->
  completion (run_handler net url m request random) =
  Normal (JObj [(payload_key m, JArr [])]).
Proof.
  intros Hm Hx Herr Hpay. apply answers_completion in Hx.
  simpl in Hm. decompose [or] Hm; subst; try contradiction;
    revert Hx; unfold_handler; intro Hx; cbn [payload_key] in Hpay;
    step_completion; rewrite Hx; unfold throw_if_error;
    step_completion; cbn [member];
    try (destruct (lookup "error" members) as [e|]; [rewrite Herr|]);
    step_completion; rewrite Hpay; reflexivity.
Qed.

(** A property of effects that holds of every step holds of the whole. *)
Lemma Forall_trace_bind {A B} (P : Effect -> Prop) (c : Async A) (k : A -> Async B) :
  Forall P (trace c) -> (forall a, Forall P (trace (k a))) -> Forall P (trace (bind c k)).
Proof.
  intros Hc Hk. rewrite trace_bind. destruct (completion c); auto.
  apply Forall_app. auto.
Qed.

Lemma Forall_trace_try {A} (P : Effect -> Prop) (body : Async A) (h : JsError -> Async A) :
  Forall P (trace body) -> (forall e, Forall P (trace (h e))) ->
  Forall P (trace (try_catch body h)).
Proof.
  intros Hb Hh. rewrite trace_try. destruct (completion body); auto.
  apply Forall_app. auto.
Qed.

Lemma Forall_trace_eval {A} (P : Effect -> Prop) (c : Completion A) :
  Forall P (trace (eval c)).
Proof. constructor. Qed.

Lemma Forall_trace_log (P : Effect -> Prop) : P Logged -> Forall P (trace log).
Proof. intro H. repeat constructor. exact H. Qed.

Lemma Forall_trace_log_interpolating (P : Effect -> Prop) (v : value) :
  P Logged -> Forall P (trace (log_interpolating Number_toString v)).
Proof.
  intro H. destruct v as [x|]; unfold log_interpolating.
  - apply Forall_trace_bind; [apply Forall_trace_eval|].
    intros _. now apply Forall_trace_log.
  - now apply Forall_trace_log.
Qed.

Lemma Forall_trace_throw_if_error (P : Effect -> Prop) (response : JSON) :
  Forall P (trace (throw_if_error Number_toString response)).
Proof.
  unfold throw_if_error.
  apply Forall_trace_bind; [apply Forall_trace_eval|].
  intros [e|]; [|apply Forall_trace_eval].
  destruct (truthy (Some e)); [|apply Forall_trace_eval].
  apply Forall_trace_bind; [apply Forall_trace_eval|]. intro msg.
  apply Forall_trace_bind; [apply Forall_trace_eval|]. intro err.
  apply Forall_trace_eval.
Qed.

Ltac trace_steps :=
  repeat first
    [ apply Forall_trace_eval
    | apply Forall_trace_log; auto
    | apply Forall_trace_log_interpolating; auto
    | apply Forall_trace_throw_if_error
    | apply makeHttpRequest_trace
    | apply Forall_trace_bind; [|intro]
    | apply Forall_trace_try; [|intro] ].

(** What a handler does to the world: it logs, and it posts the one
    call of its method, envelope version "2.0", to the URL the bridge
    was constructed with.  It never posts elsewhere and never touches
    the transport. *)
Theorem handler_only_logs_and_posts_its_call
    (net : Network) (url : string) (m : Method) (request : Request) (random : spec_float) :
  Forall (fun e => e = Logged \/ e = Posted url (outgoing m request random))
    (trace (run_handler net url m request random)) /\
  jsonrpc (outgoing m request random) = "2.0" /\
  method (outgoing m request random) = method_name m.
Proof.
  split; [|destruct m; split; reflexivity].
  destruct m; unfold_handler; trace_steps.
Qed.

(** [tools/list] hands back whatever truthy value the remote put under
    [tools], unless logging its length throws: the length of an array
    or a string is a number and converts, an object's [length] member
    may be an object that does not, and then the handler fails although
    the call succeeded.  A string conversion always settles
    ([ToString_settles]): the last branch is there for the match to
    be complete. *)
Theorem tools_list_forwards_unless_length_throws
    (net : Network) (url : string) (request : Request) (random : spec_float)
    (members : list (string * JSON)) (tools : JSON) :
  answers JSON_parse (net url (outgoing ListTools request random)) (JObj members) ->
  truthy (lookup "error" members) = false ->
  opt_member (lookup "result" members) "tools" = Some tools ->
  truthy (Some tools) = true ->
  completion (run_handler net url ListTools request random) =
  match length_of tools with
  | None => Normal (JObj [("tools", tools)])
  | Some n =>
      match ToString Number_toString n with
      | Normal _ => Normal (JObj [("tools", tools)])
      | Throw e => Throw (mkError ("Failed to get tools: " ++ message e))
      | Pending => Pending
      end
  end.
Proof.
  intros Hx Herr Ht Htruthy. apply answers_completion in Hx.
  revert Hx; unfold_handler; intro Hx.
  step_completion; rewrite Hx; unfold throw_if_error;
    step_completion; cbn [member].
  assert (or_else (Some tools) (JArr []) = tools) as Hor
    by (unfold or_else; rewrite Htruthy; reflexivity).
  destruct (lookup "error" members) as [e|]; [rewrite Herr|];
    step_completion; rewrite Ht, Hor; unfold log_interpolating;
    (destruct (length_of tools) as [n|]; [|reflexivity]);
    step_completion; destruct (ToString Number_toString n); reflexivity.
Qed.

(** ** Further properties of start and main *)

(** When the probe has settled, in whatever way, and attaching the
    transport then fails, [start] rejects with that very error.  A
    transport that cannot be attached is never attached.  With any
    outcome the probe is the only request [start] posts, and it is
    posted at most once. *)
Theorem start_fails_only_with_connect
    (net : Network) (url : string) (connect : Completion unit) (e : JsError) :
  (connect = Throw e ->
   ~ cut_off (net url initialize_request) ->
   completion (start JSON_parse net connect (constructor url)) = Throw e) /\
  (connect = Throw e ->
   ~ In Connected (trace (start JSON_parse net connect (constructor url)))) /\
  (posted (trace (start JSON_parse net connect (constructor url))) = [] \/
   posted (trace (start JSON_parse net connect (constructor url))) = [initialize_request]).
Proof.
  clear JSON_stringify Number_toString.
  split; [|split].
  - intros -> Hx. apply settled_completion in Hx.
    rewrite completion_start. cbn [constructor serverUrl].
    destruct (completion (makeHttpRequest JSON_parse net url initialize_request));
      try reflexivity; contradiction.
  - intros ->.
    unfold start, server_connect, makeHttpRequest. cbn [constructor serverUrl server].
    probe_cases (net url initialize_request);
      cbv [trace bind try_catch perform log eval completion app In];
      intuition discriminate.
  - unfold start, server_connect, makeHttpRequest. cbn [constructor serverUrl server].
    destruct connect as [[]|e'|];
      probe_cases (net url initialize_request);
      cbv [trace bind try_catch perform log eval completion app posted]; auto.
Qed.

(** [main]: without a server URL on the command line the process
    prints the usage and exits with code 1 before doing anything else.
    With one, and a probe that settles, it exits (code 1) when [start]
    fails, and stays alive with the transport attached when the
    transport can be attached.  With a probe whose response is cut off
    it neither calls [process.exit] nor attaches the transport, and
    prints nothing.  In every case it posts only the probe, to the URL
    given. *)
Theorem main_exit_codes
    (argv : list string) (net : Network) (connect : Completion unit) :
  ((List.length argv < 3)%nat ->
   main JSON_parse argv net connect = mkProcess usage [] (Some 1%N)) /\
  ((3 <= List.length argv)%nat ->
   (forall e, connect = Throw e ->
              ~ cut_off (net (nth 2 argv "") initialize_request) ->
              exit_code (main JSON_parse argv net connect) = Some 1%N /\
              printed (main JSON_parse argv net connect) = [FatalError e]) /\
   (connect = Normal tt ->
    ~ cut_off (net (nth 2 argv "") initialize_request) ->
    exit_code (main JSON_parse argv net connect) = None /\
    printed (main JSON_parse argv net connect) = [] /\
    In Connected (effects (main JSON_parse argv net connect))) /\
   (cut_off (net (nth 2 argv "") initialize_request) ->
    exit_code (main JSON_parse argv net connect) = None /\
    printed (main JSON_parse argv net connect) = [] /\
    ~ In Connected (effects (main JSON_parse argv net connect))) /\
   (forall u data, In (Posted u data) (effects (main JSON_parse argv net connect)) ->
                   u = nth 2 argv "" /\ data = initialize_request)).
Proof.
  clear JSON_stringify Number_toString.
  unfold main. split.
  - intro H. apply Nat.ltb_lt in H. rewrite H. reflexivity.
  - intro H. apply Nat.ltb_ge in H. rewrite H. cbv zeta.
    assert (forall u data,
               In (Posted u data)
                 (trace (start JSON_parse net connect (constructor (nth 2 argv "")))) ->
               u = nth 2 argv "" /\ data = initialize_request) as Hposted.
    { intros u data.
      unfold start, server_connect, makeHttpRequest. cbn [constructor serverUrl server].
      destruct connect as [[]|e'|];
        probe_cases (net (nth 2 argv "") initialize_request);
        cbv [trace bind try_catch perform log eval completion app In];
        intuition congruence. }
    split; [|split; [|split]].
    + intros e -> Hx. apply settled_completion in Hx.
      rewrite completion_start. cbn [constructor serverUrl].
      destruct (completion (makeHttpRequest JSON_parse net (nth 2 argv "")
                              initialize_request));
        try contradiction; split; reflexivity.
    + intros -> Hx. pose proof (settled_completion _ _ _ Hx) as Hs.
      rewrite completion_start. cbn [constructor serverUrl].
      assert (In Connected
                (trace (start JSON_parse net (Normal tt) (constructor (nth 2 argv "")))))
        as Hin.
      { rewrite trace_start. cbn [constructor serverUrl].
        apply in_cons, in_or_app. right.
        destruct (completion (makeHttpRequest JSON_parse net (nth 2 argv "")
                                initialize_request));
          try contradiction; simpl; auto. }
      destruct (completion (makeHttpRequest JSON_parse net (nth 2 argv "")
                              initialize_request));
        try contradiction; repeat split; assumption.
    + intros (statusCode & received & Hx).
      rewrite completion_start. cbn [constructor serverUrl].
      rewrite makeHttpRequest_completion, Hx.
      split; [reflexivity|]. split; [reflexivity|].
      cbn [effects].
      unfold start, server_connect, makeHttpRequest. cbn [constructor serverUrl server].
      rewrite Hx. destruct connect as [[]|e'|];
        cbv [trace bind try_catch perform log eval completion app In];
        intuition discriminate.
    + intros u data Hin. apply Hposted.
      destruct (completion (start JSON_parse net connect (constructor (nth 2 argv ""))));
        exact Hin.
Qed.

End Properties.

(** ** The properties on concrete exchanges *)

Lemma replies_answers (document : JSON) (u : string) (data : JSONRPCRequest) :
  Sample.parse (Sample.stringify document) = Some document ->
  answers Sample.parse (Sample.replies 200 document u data) document.
Proof.
  intro H. exists (Some 200%N), (Sample.stringify document).
  repeat split; [|assumption].
  exists 200%N. split; [reflexivity|lia].
Qed.

Lemma not_2xx_500 : ~ in_2xx (Some 500%N).
Proof. intros (n & [= <-] & H). lia. Qed.

Lemma not_2xx_404 : ~ in_2xx (Some 404%N).
Proof. intros (n & [= <-] & H). lia. Qed.

Lemma in_2xx_200 : in_2xx (Some 200%N).
Proof. exists 200%N. split; [reflexivity|lia]. Qed.

Lemma response_end_settles (statusCode : option N) (body : string) :
  ~ cut_off (ResponseEnd statusCode body).
Proof. intros (s & r & H). discriminate. Qed.

Lemma request_timeout_settles (hang_up : bool) : ~ cut_off (RequestTimeout hang_up).
Proof. intros (s & r & H). discriminate. Qed.

Lemma response_cut_off (statusCode : option N) (received : string) :
  cut_off (ResponseCutOff statusCode received).
Proof. now exists statusCode, received. Qed.

(** The headers of a 200 response to [resources/list] arrive and the
    connection is closed after the first character of the body: the
    handler stays pending, the request having been posted. *)
Lemma cut_off_response_leaves_other_handlers_pending_witness :
  completion (Sample.run (Sample.always (ResponseCutOff (Some 200%N) "{"))
                ListResources (Sample.list_request "resources/list") Sample.one_half) =
  Pending /\
  posted (trace (Sample.run (Sample.always (ResponseCutOff (Some 200%N) "{"))
                   ListResources (Sample.list_request "resources/list") Sample.one_half)) =
  [outgoing ListResources (Sample.list_request "resources/list") Sample.one_half].
Proof.
  pose proof (cut_off_response_leaves_other_handlers_pending
                Sample.parse Sample.stringify Sample.number_toString
                (Sample.always (ResponseCutOff (Some 200%N) "{")) Sample.url
                ListResources (Sample.list_request "resources/list") Sample.one_half
                eq_refl (response_cut_off (Some 200%N) "{")) as (_ & H1 & _ & H2).
  split; [exact H1|exact H2].
Defined.

(** The same response to [tools/call]: the handler stays pending, the
    request having been posted. *)
Lemma cut_off_response_leaves_tool_handlers_pending_witness :
  completion (Sample.run (Sample.always (ResponseCutOff (Some 200%N) "{"))
                CallTool Sample.call_echo Sample.one_half) =
  Pending /\
  posted (trace (Sample.run (Sample.always (ResponseCutOff (Some 200%N) "{"))
                   CallTool Sample.call_echo Sample.one_half)) =
  [outgoing CallTool Sample.call_echo Sample.one_half].
Proof.
  pose proof (cut_off_response_leaves_tool_handlers_pending
                Sample.parse Sample.stringify Sample.number_toString
                (Sample.always (ResponseCutOff (Some 200%N) "{")) Sample.url
                CallTool Sample.call_echo Sample.one_half
                eq_refl (response_cut_off (Some 200%N) "{")) as (_ & H1 & _ & H2).
  split; [exact H1|exact H2].
Defined.

(** A draw just below one gives an id in range. *)
Lemma generated_id_in_range_witness :
  exists n, Double.to_Z (generateId Sample.almost_one) = Some n /\ 0 <= n <= 999999.
Proof.
  exact (proj1 (generated_id_in_range_and_from_the_draw_alone
                  Sample.parse Sample.stringify Sample.number_toString
                  (Sample.always (RequestTimeout true)) Sample.url ListTools
                  (Sample.list_request "tools/list") Sample.almost_one) eq_refl).
Defined.

(** C3 as stated fails on the draw 0 and an incoming request whose id
    is 0: the draw is in [0, 1), the generated id is 0, which is not
    positive, and the request posted carries the very id of the
    incoming request. *)
Lemma generated_id_zero_equals_incoming_id :
  unit_interval (S754_zero false) = true /\
  Double.to_Z (generateId (S754_zero false)) = Some 0 /\
  request_id (Sample.list_request "tools/list") = JNum (S754_zero false) /\
  posted (trace (Sample.run (Sample.always (RequestTimeout true)) ListTools
                   (Sample.list_request "tools/list") (S754_zero false))) =
  [mkRequest "2.0" "tools/list" (Some (JObj []))
     (request_id (Sample.list_request "tools/list"))].
Proof. repeat split. Qed.

(** An error object in the response to [tools/list] is a failure. *)
Lemma tool_error_response_is_a_failure_witness :
  exists cause,
    completion (Sample.run (Sample.replies 200 (Sample.rpc_error (-32000) "backend down"))
                  ListTools (Sample.list_request "tools/list") Sample.one_half) =
    Throw (mkError ("Failed to get tools: " ++ cause)).
Proof.
  eapply (tool_error_response_is_a_failure Sample.parse Sample.stringify
            Sample.number_toString _ Sample.url ListTools _ _ _ _ eq_refl).
  - apply replies_answers. reflexivity.
  - reflexivity.
Defined.

(** A content array is forwarded; a result without [content] is
    stringified into one text item. *)
Lemma tool_call_content_or_stringified_result_witness :
  completion (Sample.run
                (Sample.replies 200
                   (Sample.rpc_result
                      (JObj [("content", JArr [JObj [("type", JStr "text");
                                                     ("text", JStr "hi")]])])))
                CallTool Sample.call_echo Sample.one_half) =
  Normal (JObj [("content", JArr [JObj [("type", JStr "text"); ("text", JStr "hi")]])]) /\
  completion (Sample.run
                (Sample.replies 200
                   (Sample.rpc_result (JObj [("resources", JArr [JObj [("uri", JStr "file:///a")]])])))
                CallTool Sample.call_echo Sample.one_half) =
  Normal (JObj [("content",
    JArr [JObj [("type", JStr "text");
                ("text", JStr (Sample.stringify
                   (JObj [("resources", JArr [JObj [("uri", JStr "file:///a")]])])))]])]).
Proof.
  split.
  - refine (proj1 (tool_call_content_or_stringified_result Sample.parse Sample.stringify
                     Sample.number_toString _ Sample.url _ _
                     [("jsonrpc", JStr "2.0");
                      ("result", JObj [("content", JArr [JObj [("type", JStr "text");
                                                               ("text", JStr "hi")]])]);
                      ("id", JNum (Double.of_Z 1))] _ eq_refl) _ eq_refl eq_refl).
    apply replies_answers. reflexivity.
  - refine (proj1 (proj2 (tool_call_content_or_stringified_result Sample.parse
                            Sample.stringify Sample.number_toString _ Sample.url _ _
                            [("jsonrpc", JStr "2.0");
                             ("result", JObj [("resources",
                                               JArr [JObj [("uri", JStr "file:///a")]])]);
                             ("id", JNum (Double.of_Z 1))] _ eq_refl))
              _ eq_refl eq_refl eq_refl).
    apply replies_answers. reflexivity.
Defined.

(** C5 as stated fails on a result whose [content] is the empty
    string: the answer is not that content but a text item holding the
    stringified result.  It fails too on the result [false], which has
    no [content]: the text is the stringified empty object, not the
    stringified result. *)
Lemma tool_call_falsy_content_is_replaced :
  completion (Sample.run (Sample.replies 200 (Sample.rpc_result (JObj [("content", JStr "")])))
                CallTool Sample.call_echo Sample.one_half) =
  Normal (JObj [("content",
    JArr [JObj [("type", JStr "text");
                ("text", JStr (Sample.stringify (JObj [("content", JStr "")])))]])]) /\
  completion (Sample.run (Sample.replies 200 (Sample.rpc_result (JBool false)))
                CallTool Sample.call_echo Sample.one_half) =
  Normal (JObj [("content", JArr [JObj [("type", JStr "text"); ("text", JStr "{}")]])]) /\
  Sample.stringify (JBool false) = "false".
Proof. repeat split. Qed.

(** The remote result [{tools: [{name: "echo"}]}] for [tools/list] is
    answered with [{tools: [{name: "echo"}]}]. *)
Lemma successful_result_is_forwarded_witness :
  completion (Sample.run (Sample.replies 200 Sample.echo_tools)
                ListTools (Sample.list_request "tools/list") Sample.one_half) =
  Normal (JObj [("tools", JArr [JObj [("name", JStr "echo")]])]).
Proof.
  refine (proj1 (successful_result_is_forwarded Sample.parse Sample.stringify
                   Sample.number_toString _ Sample.url ListTools _ _
                   [("result", JObj [("tools", JArr [JObj [("name", JStr "echo")]])])]
                   [("tools", JArr [JObj [("name", JStr "echo")]])]
                   [JObj [("name", JStr "echo")]] _ eq_refl eq_refl eq_refl)
            ltac:(discriminate)).
  apply replies_answers. reflexivity.
Defined.

(** Status 404 rejects with the body, status 200 with a body that is
    not JSON rejects with the body, status 200 with JSON resolves. *)
Lemma makeHttpRequest_resolves_iff_2xx_and_parses_witness :
  completion (makeHttpRequest Sample.parse
                (Sample.always (ResponseEnd (Some 404%N) "not here"))
                Sample.url initialize_request) =
  Throw (mkError "HTTP 404: not here") /\
  completion (makeHttpRequest Sample.parse
                (Sample.always (ResponseEnd (Some 200%N) "<html>"))
                Sample.url initialize_request) =
  Throw (mkError "Invalid JSON response: <html>") /\
  completion (makeHttpRequest Sample.parse (Sample.replies 200 Sample.echo_tools)
                Sample.url initialize_request) =
  Normal Sample.echo_tools.
Proof.
  split; [|split].
  - exact (proj1 (proj2 (makeHttpRequest_resolves_iff_2xx_and_parses Sample.parse
                           (Sample.always (ResponseEnd (Some 404%N) "not here"))
                           Sample.url initialize_request))
             (Some 404%N) "not here" eq_refl not_2xx_404).
  - exact (proj2 (proj2 (makeHttpRequest_resolves_iff_2xx_and_parses Sample.parse
                           (Sample.always (ResponseEnd (Some 200%N) "<html>"))
                           Sample.url initialize_request))
             (Some 200%N) "<html>" eq_refl in_2xx_200 eq_refl).
  - apply (proj1 (makeHttpRequest_resolves_iff_2xx_and_parses Sample.parse
                    (Sample.replies 200 Sample.echo_tools)
                    Sample.url initialize_request)).
    apply replies_answers. reflexivity.
Defined.

(** The response to the probe is cut off: [start] stays pending after
    the first log line and the probe, although the transport could be
    attached. *)
Lemma cut_off_probe_leaves_start_pending_witness :
  completion (start Sample.parse (Sample.always (ResponseCutOff (Some 200%N) "{"))
                (Normal tt) (constructor Sample.url)) = Pending /\
  trace (start Sample.parse (Sample.always (ResponseCutOff (Some 200%N) "{"))
           (Normal tt) (constructor Sample.url)) =
  [Logged; Posted Sample.url initialize_request].
Proof.
  pose proof (cut_off_probe_leaves_start_pending Sample.parse Sample.stringify
                Sample.number_toString
                (Sample.always (ResponseCutOff (Some 200%N) "{")) Sample.url (Normal tt)
                (response_cut_off (Some 200%N) "{")) as (H1 & H2 & _).
  split; [exact H1|exact H2].
Defined.

(** Two invocations of [tools/call], for different requests and draws,
    against different servers that send the same response. *)
Lemma reply_is_a_function_of_the_response_witness :
  completion (handler Sample.parse Sample.stringify Sample.number_toString
                (Sample.replies 200 Sample.no_such_tool) "https://a.test/"
                CallTool Sample.call_echo Sample.one_half) =
  completion (handler Sample.parse Sample.stringify Sample.number_toString
                (fun _ _ => ResponseEnd (Some 204%N) (Sample.stringify Sample.no_such_tool))
                "https://b.test/"
                CallTool (Sample.list_request "tools/call") Sample.almost_one).
Proof.
  apply (reply_is_a_function_of_the_response Sample.parse Sample.stringify
           Sample.number_toString _ _ _ _ CallTool _ _ _ _ Sample.no_such_tool).
  - apply replies_answers. reflexivity.
  - exists (Some 204%N), (Sample.stringify Sample.no_such_tool).
    split; [reflexivity|]. split; [|reflexivity].
    exists 204%N. split; [reflexivity|lia].
Defined.

(** A [resources/list] request that carries a cursor: the request
    posted has the empty object as [params]. *)
Lemma list_methods_post_empty_params_witness :
  forallb (fun data => match params data with
                       | Some (JObj []) => true
                       | _ => false
                       end)
    (posted (trace (Sample.run (Sample.replies 200 Sample.echo_tools) ListResources
                      (Sample.list_request "resources/list") Sample.one_half))) = true /\
  exists data,
    posted (trace (Sample.run (Sample.replies 200 Sample.echo_tools) ListResources
                     (Sample.list_request "resources/list") Sample.one_half)) = [data] /\
    method data = "resources/list".
Proof.
  split; [reflexivity|].
  apply (proj2 (proj2 (list_methods_post_empty_params Sample.parse Sample.stringify
                         Sample.number_toString (Sample.replies 200 Sample.echo_tools)
                         Sample.url ListResources (Sample.list_request "resources/list")
                         Sample.one_half))).
  intros data e. discriminate.
Defined.

(** ** The further properties on concrete exchanges *)

Lemma corner_replies_answers (document : JSON) (u : string) (data : JSONRPCRequest) :
  Corner.parse (Sample.stringify document) = Some document ->
  answers Corner.parse (Sample.replies 200 document u data) document.
Proof.
  intro H. exists (Some 200%N), (Sample.stringify document).
  split; [reflexivity|]. split; [apply in_2xx_200|assumption].
Qed.

(** A body that parses to [null] still gets [prompts/list] an answer. *)
Lemma other_handlers_reply_when_the_call_settles_witness :
  exists reply,
    completion (Sample.run (Sample.replies 200 JNull) ListPrompts
                  (Sample.list_request "prompts/list") Sample.one_half) = Normal reply.
Proof.
  exact (other_handlers_reply_when_the_call_settles
           Sample.parse Sample.stringify Sample.number_toString
           (Sample.replies 200 JNull) Sample.url ListPrompts
           (Sample.list_request "prompts/list") Sample.one_half eq_refl
           (response_end_settles (Some 200%N) (Sample.stringify JNull))).
Defined.

(** A body that parses to [null] makes [tools/list] throw the engine's
    TypeError, with the prefix. *)
Lemma tool_handlers_throw_only_with_prefix_witness :
  exists cause,
    "Failed to get tools: Cannot read properties of null (reading 'error')" =
    "Failed to get tools: " ++ cause.
Proof.
  exact (tool_handlers_throw_only_with_prefix Sample.parse Sample.stringify
           Sample.number_toString (Sample.replies 200 JNull) Sample.url ListTools
           (Sample.list_request "tools/list") Sample.one_half
           (mkError "Failed to get tools: Cannot read properties of null (reading 'error')")
           eq_refl eq_refl).
Defined.

(** An error together with resources: the resources are answered. *)
Lemma other_handlers_ignore_error_member_witness :
  completion (Corner.run (Sample.replies 200 Corner.error_and_result) ListResources
                (Sample.list_request "resources/list") Sample.one_half) =
  Normal (JObj [("resources", JArr [JObj [("uri", JStr "file:///a")]])]).
Proof.
  refine (other_handlers_ignore_error_member Corner.parse Sample.stringify
            Sample.number_toString _ Sample.url ListResources _ _
            [("error", JObj [("code", JNum (Double.of_Z (-32000)));
                             ("message", JStr "partial")]);
             ("result", JObj [("resources", JArr [JObj [("uri", JStr "file:///a")]])])]
            [("resources", JArr [JObj [("uri", JStr "file:///a")]])]
            [JObj [("uri", JStr "file:///a")]]
            (or_introl eq_refl) _ eq_refl eq_refl).
  apply corner_replies_answers. reflexivity.
Defined.

(** The result [false] has no [tools]: the answer is [{tools: []}]. *)
Lemma missing_member_defaults_to_empty_witness :
  completion (Sample.run (Sample.replies 200 (Sample.rpc_result (JBool false))) ListTools
                (Sample.list_request "tools/list") Sample.one_half) =
  Normal (JObj [("tools", JArr [])]).
Proof.
  refine (missing_member_defaults_to_empty Sample.parse Sample.stringify
            Sample.number_toString _ Sample.url ListTools _ _
            [("jsonrpc", JStr "2.0"); ("result", JBool false); ("id", JNum (Double.of_Z 1))]
            (or_introl eq_refl) _ eq_refl eq_refl).
  apply replies_answers. reflexivity.
Defined.

(** A [tools] object whose [length] cannot be converted to a string. *)
Lemma tools_list_forwards_unless_length_throws_witness :
  completion (Corner.run (Sample.replies 200 Corner.odd_tools) ListTools
                (Sample.list_request "tools/list") Sample.one_half) =
  Throw (mkError "Failed to get tools: Cannot convert object to primitive value").
Proof.
  refine (tools_list_forwards_unless_length_throws Corner.parse Sample.stringify
            Sample.number_toString _ Sample.url _ _
            [("result",
              JObj [("tools", JObj [("length", JObj [("toString", JNum (Double.of_Z 1))])])])]
            (JObj [("length", JObj [("toString", JNum (Double.of_Z 1))])])
            _ eq_refl eq_refl eq_refl).
  apply corner_replies_answers. reflexivity.
Defined.

(** The transport cannot be attached: [start] rejects with that error
    after a probe that succeeded. *)
Lemma start_fails_only_with_connect_witness :
  completion (start Sample.parse (Sample.replies 200 Sample.echo_tools)
                (Throw (mkError "stdin closed")) (constructor Sample.url)) =
  Throw (mkError "stdin closed") /\
  ~ In Connected (trace (start Sample.parse (Sample.replies 200 Sample.echo_tools)
                           (Throw (mkError "stdin closed")) (constructor Sample.url))).
Proof.
  split.
  - exact (proj1 (start_fails_only_with_connect Sample.parse
                    (Sample.replies 200 Sample.echo_tools) Sample.url
                    (Throw (mkError "stdin closed")) (mkError "stdin closed")) eq_refl
             (response_end_settles (Some 200%N) (Sample.stringify Sample.echo_tools))).
  - exact (proj1 (proj2 (start_fails_only_with_connect Sample.parse
                           (Sample.replies 200 Sample.echo_tools) Sample.url
                           (Throw (mkError "stdin closed")) (mkError "stdin closed")))
             eq_refl).
Defined.

(** No argument after the script name: usage, exit code 1.  With a
    URL and a probe that times out [main] does not call
    [process.exit]; with a probe whose response is cut off the
    transport is not attached. *)
Lemma main_exit_codes_witness :
  main Sample.parse ["node"; "mcp-remote"] (Sample.always (RequestTimeout true)) (Normal tt) =
  mkProcess usage [] (Some 1%N) /\
  exit_code (main Sample.parse ["node"; "mcp-remote"; Sample.url]
               (Sample.always (RequestTimeout true)) (Normal tt)) = None /\
  ~ In Connected
      (effects (main Sample.parse ["node"; "mcp-remote"; Sample.url]
                  (Sample.always (ResponseCutOff (Some 200%N) "{")) (Normal tt))).
Proof.
  assert (3 <= List.length ["node"; "mcp-remote"; Sample.url])%nat as H3
    by (simpl; lia).
  split; [|split].
  - apply (proj1 (main_exit_codes Sample.parse ["node"; "mcp-remote"]
                    (Sample.always (RequestTimeout true)) (Normal tt))).
    simpl. lia.
  - exact (proj1 (proj1 (proj2 (proj2 (main_exit_codes Sample.parse
                                         ["node"; "mcp-remote"; Sample.url]
                                         (Sample.always (RequestTimeout true)) (Normal tt))
                                  H3))
                    eq_refl (request_timeout_settles true))).
  - exact (proj2 (proj2 (proj1 (proj2 (proj2 (proj2 (main_exit_codes Sample.parse
                                         ["node"; "mcp-remote"; Sample.url]
                                         (Sample.always (ResponseCutOff (Some 200%N) "{"))
                                         (Normal tt)) H3)))
                           (response_cut_off (Some 200%N) "{")))).
Defined.

(** HTTP 500 on [resources/list] is answered with [{resources: []}],
    and a JSON-RPC error on [prompts/get] with the empty prompt. *)
Lemma settled_failure_yields_fallback_witness :
  completion (Sample.run (Sample.always (ResponseEnd (Some 500%N) "Internal Server Error"))
                ListResources (Sample.list_request "resources/list") Sample.one_half) =
  Normal (JObj [("resources", JArr [])]) /\
  completion (Sample.run (Sample.replies 200 (Sample.rpc_error (-32000) "backend down"))
                GetPrompt Sample.call_echo Sample.one_half) =
  Normal (JObj [("description", JStr ""); ("messages", JArr [])]).
Proof.
  split.
  - apply (settled_failure_yields_fallback Sample.parse Sample.stringify
             Sample.number_toString
             _ Sample.url ListResources _ _
             "HTTP 500: Internal Server Error" eq_refl).
    apply (protocol_error Sample.parse (Some 500%N) "Internal Server Error" not_2xx_500).
  - apply (settled_failure_yields_fallback Sample.parse Sample.stringify
             Sample.number_toString
             _ Sample.url GetPrompt _ _ "backend down" eq_refl).
    eapply remote_rpc_error.
    + apply replies_answers. reflexivity.
    + eexists _, _, _. repeat split; reflexivity.
Defined.

(** The remote error [{code: -32601, message: "no such tool"}] on
    [tools/call] is thrown as "Tool execution failed: no such tool". *)
Lemma settled_tool_failure_is_propagated_with_prefix_witness :
  completion (Sample.run (Sample.replies 200 Sample.no_such_tool)
                CallTool Sample.call_echo Sample.one_half) =
  Throw (mkError "Tool execution failed: no such tool").
Proof.
  apply (settled_tool_failure_is_propagated_with_prefix Sample.parse Sample.stringify
           Sample.number_toString _ Sample.url CallTool _ _ "no such tool" eq_refl).
  eapply remote_rpc_error.
  - apply replies_answers. reflexivity.
  - eexists _, _, _. repeat split; reflexivity.
Defined.

